(** * ModelicaEnv: the episode controller of gym_microgrid/env/modelica.py

    A shallow embedding of [ModelicaEnv] (construction, [_setup_fmu],
    [_calc_jac], [_get_deriv], [_simulate], [is_done],
    [update_measurements], [reset], [step]) together with the properties
    of its specification.

    Conventions of the embedding:
    - Python floats (times, states, observations) are exact rationals [Q];
      rounding is outside the controller's model.  Where a property turns
      on the rounding itself, the arithmetic of the time window is given a
      second time in binary64 (the definitions ending in [_f64]).
    - A Python call that may raise returns an [outcome]; the controller
      state reached when the exception leaves the call is returned next to
      it, since Python does not undo the assignments made before a raise.
    - Records written through the root logger ([logging.warning],
      [logging.error]) are returned as a list, oldest first. *)

From Stdlib Require Import QArith Qabs Lqa ZArith String Ascii List Lia.
From Stdlib Require Import DecimalString.
From Stdlib Require Import PrimFloat.
From stdpp Require Import gmap strings list.
Import ListNotations.

Local Open Scope string_scope.
Local Open Scope list_scope.

(** ** Python values, exceptions, log records *)

(** Values handed to the FMU through [model.set]: numbers, strings (the
    characters of a string action) and function objects. *)
Inductive pyval : Type :=
| VNum (q : Q)
| VStr (s : string)
| VFun (f : Q -> pyval).

(** [isinstance(val, Callable)] *)
Definition is_callable (v : pyval) : bool :=
  match v with VFun _ => true | _ => false end.

Inductive exn : Type :=
| ValueError (msg : string)
| TypeError (msg : string)
| AttributeError (msg : string)
| IndexError (msg : string)
| NameError (msg : string)
| SolverError (msg : string).

Inductive outcome (A : Type) : Type :=
| Return (a : A)
| Raise (x : exn).
Arguments Return {A} a.
Arguments Raise {A} x.

Inductive log_record : Type :=
| LogWarning (msg : string)
| LogError (msg : string).

(** ** Text helpers: [str(int)], [repr] of names and of lists *)

Definition str_of_nat (n : nat) : string := NilEmpty.string_of_uint (Nat.to_uint n).

Definition quote_char : string := String (ascii_of_nat 34) EmptyString.
Definition newline_char : string := String (ascii_of_nat 10) EmptyString.

(** [repr] of a name made of plain characters (no quote, no backslash). *)
Definition repr_str (s : string) : string := "'" ++ s ++ "'".

Fixpoint join_with (sep : string) (l : list string) : string :=
  match l with
  | [] => ""
  | [x] => x
  | x :: r => x ++ sep ++ join_with sep r
  end.

Definition repr_list (items : list string) : string := "[" ++ join_with ", " items ++ "]".

(** ** Column groups and the history recorder *)

(** An entry of a column specification: one name, or a nested list. *)
#[warnings="-register-all"]
Inductive colgroup : Type :=
| Col (name : string)
| Cols (group : list colgroup).

(** Modelled from the spec: [flatten] of gym_microgrid/common/itertools_.py
    is not part of the sources at hand; it turns a nested list of names
    into the flat list of its names, left to right. *)
Fixpoint flatten_group (g : colgroup) : list string :=
  match g with
  | Col n => [n]
  | Cols l => List.concat (List.map flatten_group l)
  end.

Definition flatten (cols : list colgroup) : list string :=
  List.concat (List.map flatten_group cols).

Fixpoint repr_group (g : colgroup) : string :=
  match g with
  | Col n => repr_str n
  | Cols l => repr_list (List.map repr_group l)
  end.

Definition repr_cols (cols : list colgroup) : string := repr_list (List.map repr_group cols).
Definition repr_names (names : list string) : string := repr_list (List.map repr_str names).

(** A one-row [pd.DataFrame]: the column labels with the cell of each. *)
Definition frame : Type := list (string * Q).

Definition frame_columns (df : frame) : list string := List.map fst df.

(** Modelled from the spec: the recorder classes [EmptyHistory] and
    [FullHistory] of gym_microgrid/env/recorder.py are not part of the
    sources at hand.  The recorder keeps the ordered column groups and an
    append-only sequence of rows; reading [cols] gives the flat names,
    assigning [cols] replaces the groups, [structured_cols()] gives the
    groups, [reset()] drops the rows and keeps the groups, [append(row)]
    adds one row. *)
Record History : Type := mkHistory {
  hist_structured : list colgroup;
  hist_rows : list frame
}.

Module history.
Definition cols (h : History) : list string := flatten (hist_structured h).
Definition set_cols (val : list colgroup) (h : History) : History :=
  {| hist_structured := val; hist_rows := hist_rows h |}.
Definition structured_cols (h : History) : list colgroup := hist_structured h.
Definition reset (h : History) : History :=
  {| hist_structured := hist_structured h; hist_rows := [] |}.
Definition append (row : frame) (h : History) : History :=
  {| hist_structured := hist_structured h; hist_rows := hist_rows h ++ [row] |}.
End history.

(** ** The pandas operations the controller uses *)

(** Attribute access [df.<name>] for a name that is no DataFrame attribute:
    pandas resolves it to the column of that label, if there is one. *)
Definition df_getattr (df : frame) (name : string) : option Q :=
  snd <$> List.find (fun c => String.eqb (fst c) name) df.

(** [pd.concat(frames, axis=1)] after [reset_index(drop=True)]: the columns
    side by side; pandas refuses an empty list of frames. *)
Definition pd_concat_axis1 (frames : list frame) : outcome frame :=
  match frames with
  | [] => Raise (ValueError "No objects to concatenate")
  | _ => Return (List.concat frames)
  end.

(** [left.join(right)]: the columns of both; pandas refuses labels that
    occur on both sides. *)
Definition df_join (left right : frame) : outcome frame :=
  let overlap := List.filter (fun n => existsb (String.eqb n) (frame_columns right))
                             (frame_columns left) in
  match overlap with
  | [] => Return (left ++ right)
  | _ => Raise (ValueError ("columns overlap but no suffix specified: " ++ repr_names overlap))
  end.

(** [pd.DataFrame([obs], columns=names)] *)
Definition df_of_row (obs : list Q) (names : list string) : outcome frame :=
  if Nat.eqb (List.length obs) (List.length names)
  then Return (List.combine names obs)
  else Raise (ValueError (str_of_nat (List.length names) ++ " columns passed, passed data had "
                          ++ str_of_nat (List.length obs) ++ " columns")).

(** ** The numpy operations of [_calc_jac] *)

Definition vec : Type := list Q.

(** A two-dimensional array, as the list of its rows. *)
Definition matrix : Type := list (list Q).

Definition np_identity (n : nat) : matrix :=
  List.map (fun i => List.map (fun j => if Nat.eqb i j then 1%Q else 0%Q) (seq 0 n)) (seq 0 n).

Definition ncols (a : matrix) : nat :=
  match a with
  | [] => O
  | row :: _ => List.length row
  end.

Definition column (j : nat) (a : matrix) : vec := List.map (fun row => nth j row 0%Q) a.

Definition columns (a : matrix) : list vec := List.map (fun j => column j a) (seq 0 (ncols a)).

(** The array whose columns are [cs], each of length [m]. *)
Definition of_columns (m : nat) (cs : list vec) : matrix :=
  List.map (fun i => List.map (fun c => nth i c 0%Q) cs) (seq 0 m).

(** [np.apply_along_axis(func1d, 0, arr)]: a NEW array whose columns are
    the results of [func1d] on the columns of [arr]; [arr] is not written.
    numpy refuses an array without columns. *)
Definition np_apply_along_axis0 (func1d : vec -> vec) (arr : matrix) : outcome matrix :=
  match List.map func1d (columns arr) with
  | [] => Raise (ValueError "Cannot apply_along_axis when any iteration dimensions are 0")
  | r :: rs => Return (of_columns (List.length r) (r :: rs))
  end.

(** [y[:, -1]]: the last entry of every row. *)
Fixpoint last_column (y : matrix) : outcome vec :=
  match y with
  | [] => Return []
  | row :: rest =>
      match List.rev row with
      | [] => Raise (IndexError "index -1 is out of bounds for axis 1 with size 0")
      | x :: _ =>
          match last_column rest with
          | Return xs => Return (x :: xs)
          | Raise e => Raise e
          end
      end
  end.

(** ** Numbers: [np.inf], comparison *)

Inductive bound : Type :=
| Finite (q : Q)
| Infinity.

(** [x > limit] *)
Definition exceeds (x : Q) (limit : bound) : bool :=
  match limit with
  | Finite l => negb (Qle_bool x l)
  | Infinity => false
  end.

(** ** The FMU (pyfmi's [FMUModelME2]) and the solver, as interfaces *)

(** The operations of the loaded FMU that the controller calls, over the
    FMU's own state [M].  [get_event_info] is the flag
    [newDiscreteStatesNeeded]; [get_states_list] and
    [get_derivatives_list] give the value references of the entries. *)
Record FMUModelME2 (M : Type) : Type := {
  fmu_reset : M -> M;
  setup_experiment : Q -> M -> M;
  enter_initialization_mode : M -> M;
  exit_initialization_mode : M -> M;
  get_event_info : M -> bool;
  enter_event_mode : M -> M;
  event_update : M -> M;
  enter_continuous_time_mode : M -> M;
  get_variable_valueref : string -> M -> Z;
  get_states_list : M -> list Z;
  get_derivatives_list : M -> list Z;
  get_directional_derivative : list Z -> list Z -> vec -> M -> vec;
  set_time : Q -> M -> M;
  continuous_states : M -> vec;
  set_continuous_states : vec -> M -> M;
  get_derivatives : M -> vec;
  get_real : list Z -> M -> vec;
  fmu_set : list string -> list pyval -> M -> M
}.
Arguments fmu_reset {M}. Arguments setup_experiment {M}.
Arguments enter_initialization_mode {M}. Arguments exit_initialization_mode {M}.
Arguments get_event_info {M}. Arguments enter_event_mode {M}.
Arguments event_update {M}. Arguments enter_continuous_time_mode {M}.
Arguments get_variable_valueref {M}. Arguments get_states_list {M}.
Arguments get_derivatives_list {M}. Arguments get_directional_derivative {M}.
Arguments set_time {M}. Arguments continuous_states {M}.
Arguments set_continuous_states {M}. Arguments get_derivatives {M}.
Arguments get_real {M}. Arguments fmu_set {M}.

(** [scipy.integrate.solve_ivp(fun, t_span, y0, method=..., jac=...)]: the
    callbacks act on the FMU, so the solver threads the FMU's state
    through them; it gives the FMU as the callbacks left it and [sol.y],
    or whatever it raised. *)
Definition solver (M : Type) : Type :=
  (Q -> vec -> M -> M * vec) ->
  Q * Q -> vec -> string ->
  (Q -> vec -> M -> M * outcome matrix) ->
  M -> M * outcome matrix.

(** ** The controller *)

(** An entry of [self.model_parameters]: the callable of the mapping as it
    was given, or the [lambda t: val] of the comprehension, which reads the
    comprehension's variable [val] when it is called. *)
Inductive param_fun : Type :=
| Given (f : Q -> pyval)
| LambdaVal.

(** The dict built by the comprehension of [__init__] with the variable
    [val] of the comprehension's scope, kept alive by the lambdas. *)
Record lifted_params : Type := {
  entries : list (string * param_fun);
  val_cell : option pyval
}.

(** A value of [step]'s argument: a bare number, a sequence, a string. *)
Inductive action : Type :=
| ActScalar (v : Q)
| ActSeq (l : list pyval)
| ActStr (s : string).

(** The objects of the tuples [step] returns. *)
Inductive pyobj : Type :=
| ONone
| OBool (b : bool)
| ONum (q : Q)
| OFrame (df : frame)
| ODict (items : list (string * pyval)).

(** The argument of [update_measurements]. *)
Inductive measurements_arg : Type :=
| MFrame (df : frame)
| MList (l : list (list colgroup * frame)).

Section ModelicaEnv.
Context {M : Type}.
Variable fmu : FMUModelME2 M.
Variable solve_ivp : solver M.

(** The attributes of a [ModelicaEnv] object ([viz_col_regex],
    [action_space] and [observation_space] serve rendering and the gym
    registry only and are left out). *)
Record Env : Type := mkEnv {
  viz_mode : option string;
  solver_method : string;
  model : M;
  reward : frame -> Q;
  time_start : Q;
  time_step_size : Q;
  time_end : bound;
  model_parameters : option lifted_params;
  sim_time_interval : option (Q * Q);
  __state : option frame;
  __measurements : option frame;
  record_states : bool;
  history : History;
  model_input_names : list string;
  model_output_names : list string;
  model_output_idx : list Z
}.

Definition set_model (m : M) (e : Env) : Env :=
  mkEnv (viz_mode e) (solver_method e) m (reward e) (time_start e) (time_step_size e)
        (time_end e) (model_parameters e) (sim_time_interval e) (__state e)
        (__measurements e) (record_states e) (history e) (model_input_names e)
        (model_output_names e) (model_output_idx e).

Definition set_sim_time_interval (w : option (Q * Q)) (e : Env) : Env :=
  mkEnv (viz_mode e) (solver_method e) (model e) (reward e) (time_start e) (time_step_size e)
        (time_end e) (model_parameters e) w (__state e)
        (__measurements e) (record_states e) (history e) (model_input_names e)
        (model_output_names e) (model_output_idx e).

Definition set_state (s : option frame) (e : Env) : Env :=
  mkEnv (viz_mode e) (solver_method e) (model e) (reward e) (time_start e) (time_step_size e)
        (time_end e) (model_parameters e) (sim_time_interval e) s
        (__measurements e) (record_states e) (history e) (model_input_names e)
        (model_output_names e) (model_output_idx e).

Definition set_measurements (ms : option frame) (e : Env) : Env :=
  mkEnv (viz_mode e) (solver_method e) (model e) (reward e) (time_start e) (time_step_size e)
        (time_end e) (model_parameters e) (sim_time_interval e) (__state e)
        ms (record_states e) (history e) (model_input_names e)
        (model_output_names e) (model_output_idx e).

Definition set_history (h : History) (e : Env) : Env :=
  mkEnv (viz_mode e) (solver_method e) (model e) (reward e) (time_start e) (time_step_size e)
        (time_end e) (model_parameters e) (sim_time_interval e) (__state e)
        (__measurements e) (record_states e) h (model_input_names e)
        (model_output_names e) (model_output_idx e).

Definition set_model_output_idx (idx : list Z) (e : Env) : Env :=
  mkEnv (viz_mode e) (solver_method e) (model e) (reward e) (time_start e) (time_step_size e)
        (time_end e) (model_parameters e) (sim_time_interval e) (__state e)
        (__measurements e) (record_states e) (history e) (model_input_names e)
        (model_output_names e) idx.

(** *** [__init__] *)

(** The dict comprehension
    [{var: (val if isinstance(val, Callable) else lambda t: val)
      for var, val in model_params.items()}]:
    every round assigns the comprehension's variable [val]; a lambda made
    in a round keeps the variable, not the value it had. *)
Fixpoint lift_items (items : list (string * pyval)) (cell : option pyval) : lifted_params :=
  match items with
  | [] => {| entries := []; val_cell := cell |}
  | (var, val) :: rest =>
      let r := lift_items rest (Some val) in
      {| entries := (var, match val with VFun f => Given f | _ => LambdaVal end) :: entries r;
         val_cell := val_cell r |}
  end.

(** [model_params and {...}] *)
Definition lift_model_params (model_params : option (list (string * pyval)))
  : option lifted_params :=
  match model_params with
  | None => None
  | Some [] => Some {| entries := []; val_cell := None |}
  | Some items => Some (lift_items items None)
  end.

Definition viz_modes : list (option string) := [Some "episode"; Some "step"; None].

Definition viz_mode_known (v : option string) : bool :=
  existsb (fun k => match k, v with
                    | Some a, Some b => String.eqb a b
                    | None, None => true
                    | _, _ => false
                    end) viz_modes.

Definition repr_viz_modes : string := "{'episode', 'step', None}".

(** [ModelicaEnv(time_step, time_start, reward_fun, solver_method,
    max_episode_steps, model_params, model_input, model_output, viz_mode,
    history)]; [loaded] is what [load_fmu(model_path, ...)] gave.  Three
    calls of the source that can raise are not part of it:
    [logger.setLevel(log_level)], [load_fmu] itself and the check of the
    type of [selected_viz_series]; [Return e] is the object the source
    builds when none of them raises. *)
Definition __init__ (time_step time_start_ : Q) (reward_fun : frame -> Q)
    (solver_method_ : string) (max_episode_steps : option Z)
    (model_params : option (list (string * pyval)))
    (model_input : option (list string)) (model_output : option (list colgroup))
    (viz_mode_ : option string) (history_ : History) (loaded : M) : outcome Env :=
  match model_input, model_output with
  | None, _ => Raise (ValueError "Please specify model_input variables from your OM FMU.")
  | Some _, None => Raise (ValueError "Please specify model_output variables from your OM FMU.")
  | Some model_input_, Some model_output_ =>
      if negb (viz_mode_known viz_mode_)
      then Raise (ValueError ("Please select one of the following viz_modes: " ++ repr_viz_modes))
      else
        let history1 := history.set_cols model_output_ history_ in
        Return {|
          viz_mode := viz_mode_;
          solver_method := solver_method_;
          model := loaded;
          reward := reward_fun;
          time_start := time_start_;
          time_step_size := time_step;
          time_end := match max_episode_steps with
                      | None => Infinity
                      | Some n => Finite (time_start_ + inject_Z n * time_step)%Q
                      end;
          model_parameters := lift_model_params model_params;
          sim_time_interval := None;
          __state := None;
          __measurements := None;
          record_states := match viz_mode_ with
                           | Some v => String.eqb v "episode"
                           | None => false
                           end;
          history := history1;
          model_input_names := model_input_;
          model_output_names := history.cols history1;
          model_output_idx := []
        |}
  end.

(** *** [_setup_fmu] *)

(** The event iteration
    [while e_info.newDiscreteStatesNeeded: enter_event_mode();
     event_update(); e_info = get_event_info()],
    entered with the flag forced to [True]; [fuel] bounds the rounds, and
    [None] is a loop still running when the fuel is spent. *)
Fixpoint event_iteration (fuel : nat) (m : M) : option M :=
  match fuel with
  | O => None
  | S k =>
      let m1 := event_update fmu (enter_event_mode fmu m) in
      if get_event_info fmu m1 then event_iteration k m1 else Some m1
  end.

Definition _setup_fmu (fuel : nat) (e : Env) : option Env :=
  let m1 := setup_experiment fmu (time_start e) (model e) in
  let m2 := enter_initialization_mode fmu m1 in
  let m3 := exit_initialization_mode fmu m2 in
  match event_iteration fuel m3 with
  | None => None
  | Some m4 =>
      let m5 := enter_continuous_time_mode fmu m4 in
      Some (set_model_output_idx
              (List.map (fun k => get_variable_valueref fmu k m5) (model_output_names e))
              (set_model m5 e))
  end.

(** *** [_calc_jac], [_get_deriv], [_simulate] *)

(** The value of [np.apply_along_axis] is dropped: what is returned is
    the array [jacobian] made by [np.identity]. *)
Definition _calc_jac (t : Q) (x : vec) (m : M) : M * outcome matrix :=
  let refs_states := get_states_list fmu m in
  let refs_derivs := get_derivatives_list fmu m in
  let jacobian := np_identity (List.length refs_derivs) in
  match np_apply_along_axis0
          (fun col => get_directional_derivative fmu refs_states refs_derivs col m)
          jacobian with
  | Raise err => (m, Raise err)
  | Return _ => (m, Return jacobian)
  end.

Definition _get_deriv (t : Q) (x : vec) (m : M) : M * vec :=
  let m1 := set_time fmu t m in
  let m2 := set_continuous_states fmu x m1 in
  (m2, get_derivatives fmu m2).

Definition none_not_subscriptable : exn := TypeError "'NoneType' object is not subscriptable".

Definition _simulate (e : Env) : Env * outcome frame :=
  match sim_time_interval e with
  | None => (e, Raise none_not_subscriptable)
  | Some t_span =>
      let x_0 := continuous_states fmu (model e) in
      let '(m1, sol_out) :=
        solve_ivp _get_deriv t_span x_0 (solver_method e) _calc_jac (model e) in
      match sol_out with
      | Raise err => (set_model m1 e, Raise err)
      | Return y =>
          match last_column y with
          | Raise err => (set_model m1 e, Raise err)
          | Return y_last =>
              let m2 := set_continuous_states fmu y_last m1 in
              let obs := get_real fmu (model_output_idx e) m2 in
              (set_model m2 e, df_of_row obs (model_output_names e))
          end
      end
  end.

(** *** [is_done] *)

Definition is_done (e : Env) : outcome bool :=
  match sim_time_interval e with
  | None => Raise none_not_subscriptable
  | Some (_, t_end) => Return (exceeds (Qabs t_end) (time_end e))
  end.

(** *** [update_measurements] *)

Definition columns_already_added (cols : list colgroup) (known : list string) : string :=
  "some of the columns are already added, this should not happen: cols:" ++ quote_char
    ++ repr_cols cols ++ quote_char ++ ";self.history.cols:" ++ quote_char
    ++ repr_names known ++ quote_char.

Definition miss_col_count (cols : list colgroup) (h : History) : nat :=
  size ((list_to_set (flatten cols) : gset string) ∖ list_to_set (history.cols h)).

(** One round of the loop over the [(cols, df)] pairs. *)
Definition register_cols (cols : list colgroup) (h : History) : outcome History :=
  let miss := miss_col_count cols h in
  if Nat.ltb 0 miss && Nat.ltb miss (List.length (flatten cols))
  then Raise (ValueError (columns_already_added cols (history.cols h)))
  else if negb (Nat.eqb miss 0)
       then Return (history.set_cols (history.structured_cols h ++ cols) h)
       else Return h.

(** The loop: the recorder as the rounds left it, and the exception that
    ended the loop, if one did. *)
Fixpoint register_all (ms : list (list colgroup * frame)) (h : History) : History * option exn :=
  match ms with
  | [] => (h, None)
  | (cols, _) :: rest =>
      match register_cols cols h with
      | Raise err => (h, Some err)
      | Return h1 => register_all rest h1
      end
  end.

(** [measurements.colums] on a DataFrame: no such attribute, unless a
    column carries that label; then the attribute is that column, and a
    column of numbers in the place of the list of names is modelled as a
    [TypeError] of the round that meets it. *)
Definition as_pairs (measurements : measurements_arg) : outcome (list (list colgroup * frame)) :=
  match measurements with
  | MList l => Return l
  | MFrame df =>
      match df_getattr df "colums" with
      | None => Raise (AttributeError "'DataFrame' object has no attribute 'colums'")
      | Some _ => Raise (TypeError "a column of values is no list of column names")
      end
  end.

Definition update_measurements (measurements : measurements_arg) (e : Env) : Env * outcome unit :=
  match as_pairs measurements with
  | Raise err => (e, Raise err)
  | Return pairs =>
      let '(h, raised) := register_all pairs (history e) in
      let e1 := set_history h e in
      match raised with
      | Some err => (e1, Raise err)
      | None =>
          match pd_concat_axis1 (List.map snd pairs) with
          | Raise err => (e1, Raise err)
          | Return df => (set_measurements (Some df) e1, Return tt)
          end
      end
  end.

(** *** [reset] *)

(** [None] only when the event iteration of [_setup_fmu] outlives the
    fuel. *)
Definition reset (fuel : nat) (e : Env) : option (Env * outcome frame) :=
  let m1 := setup_experiment fmu 0%Q (fmu_reset fmu (model e)) in
  match _setup_fmu fuel (set_model m1 e) with
  | None => None
  | Some e1 =>
      let e2 := set_sim_time_interval
                  (Some (time_start e1, (time_start e1 + time_step_size e1)%Q)) e1 in
      let e3 := set_history (history.reset (history e2)) e2 in
      let '(e4, simulated) := _simulate e3 in
      match simulated with
      | Raise err => Some (e4, Raise err)
      | Return st =>
          let e5 := set_state (Some st) e4 in
          let e6 := set_measurements (Some []) e5 in
          match df_join st [] with
          | Raise err => Some (e6, Raise err)
          | Return row => Some (set_history (history.append row (history e6)) e6, Return st)
          end
      end
  end.

(** *** [step] *)

Definition indent16 : string := "                ".

Definition step_after_done_warning : string :=
  "You are calling 'step()' even though this environment has already returned done = True."
    ++ newline_char ++ indent16
    ++ "You should always call 'reset()' once you receive 'done = True' -- any further steps are"
    ++ newline_char ++ indent16 ++ "undefined behavior.".

Definition scalar_action_warning : string :=
  "Model input values (action) should be passed as a list".

(** The message of the length check: the declared count, then the count
    passed. *)
Definition action_length_message (expected actual : nat) : string :=
  "List of values for model inputs should be of the length " ++ str_of_nat expected
    ++ ",equal to the number of model inputs. Actual length " ++ str_of_nat actual.

(** [list(action)] of a string: its characters, one string each. *)
Definition chars (s : string) : list pyval :=
  List.map (fun c => VStr (String c EmptyString)) (list_ascii_of_string s).

(** [iter(action)] with the fallback [action = [action]]: the sequence
    that goes on, and what was logged. *)
Definition as_sequence (a : action) : list pyval * list log_record :=
  match a with
  | ActScalar v => ([VNum v], [LogWarning scalar_action_warning])
  | ActSeq l => (l, [])
  | ActStr s => (chars s, [])
  end.

(** Calling an entry of [self.model_parameters] at [t]. *)
Definition call_param (cell : option pyval) (f : param_fun) (t : Q) : outcome pyval :=
  match f with
  | Given g => Return (g t)
  | LambdaVal =>
      match cell with
      | Some v => Return v
      | None => Raise (NameError
                  "free variable 'val' referenced before assignment in enclosing scope")
      end
  end.

(** [[(var, f(t)) for var, f in self.model_parameters.items()]] *)
Fixpoint eval_entries (cell : option pyval) (t : Q) (l : list (string * param_fun))
  : outcome (list (string * pyval)) :=
  match l with
  | [] => Return []
  | (var, f) :: rest =>
      match call_param cell f t with
      | Raise err => Raise err
      | Return v =>
          match eval_entries cell t rest with
          | Raise err => Raise err
          | Return vs => Return ((var, v) :: vs)
          end
      end
  end.

Definition eval_parameters (p : lifted_params) (t : Q) : outcome (list (string * pyval)) :=
  eval_entries (val_cell p) t (entries p).

(** [if self.model_parameters:] one [self.model.set] call with the names
    and the values of the pairs, evaluated at the start [t] of the
    window. *)
Definition push_parameters (e : Env) (t : Q) (m : M) : outcome M :=
  match model_parameters e with
  | None => Return m
  | Some p =>
      match entries p with
      | [] => Return m
      | _ =>
          match eval_parameters p t with
          | Raise err => Raise err
          | Return pairs => Return (fmu_set fmu (List.map fst pairs) (List.map snd pairs) m)
          end
      end
  end.

Definition obj_of_state (s : option frame) : pyobj :=
  match s with
  | Some df => OFrame df
  | None => ONone
  end.

Definition join_measurements (st : frame) (ms : option frame) : outcome frame :=
  match ms with
  | None => Raise (TypeError
              "Can only merge Series or DataFrame objects, a <class 'NoneType'> was passed")
  | Some df => df_join st df
  end.

(** The part of [step] after the action was pushed: [m1] is the FMU
    after [self.model.set(list(self.model_input_names), list(action))]. *)
Definition step_simulate (e : Env) (t_start : Q) (m1 : M) : Env * outcome (list pyobj) :=
  match push_parameters e t_start m1 with
  | Raise err => (set_model m1 e, Raise err)
  | Return m2 =>
      let '(e1, simulated) := _simulate (set_model m2 e) in
      match simulated with
      | Raise err => (e1, Raise err)
      | Return st =>
          let e2 := set_state (Some st) e1 in
          match join_measurements st (__measurements e2) with
          | Raise err => (e2, Raise err)
          | Return obs =>
              let e3 := set_history (history.append obs (history e2)) e2 in
              match is_done e3, sim_time_interval e3 with
              | Raise err, _ => (e3, Raise err)
              | Return _, None => (e3, Raise none_not_subscriptable)
              | Return done, Some (t0, t1) =>
                  let e4 :=
                    if negb done
                    then set_sim_time_interval
                           (Some ((t0 + time_step_size e3)%Q, (t1 + time_step_size e3)%Q)) e3
                    else e3 in
                  let r := reward e4 obs in
                  match is_done e4 with
                  | Raise err => (e4, Raise err)
                  | Return d => (e4, Return [OFrame obs; ONum r; OBool d; ODict []])
                  end
              end
          end
      end
  end.

Definition step (e : Env) (a : action) : Env * list log_record * outcome (list pyobj) :=
  match is_done e, sim_time_interval e with
  | Raise err, _ => (e, [], Raise err)
  | Return _, None => (e, [], Raise none_not_subscriptable)
  | Return true, Some _ =>
      (e, [LogWarning step_after_done_warning],
       match is_done e with
       | Raise err => Raise err
       | Return d => Return [obj_of_state (__state e); ONone; OBool d]
       end)
  | Return false, Some (t_start, _) =>
      let '(values, logs) := as_sequence a in
      let expected := List.length (model_input_names e) in
      if negb (Nat.eqb (List.length values) expected)
      then
        let message := action_length_message expected (List.length values) in
        (e, logs ++ [LogError message], Raise (ValueError message))
      else
        let m1 := fmu_set fmu (model_input_names e) values (model e) in
        let '(e1, res) := step_simulate e t_start m1 in
        (e1, logs, res)
  end.

End ModelicaEnv.

Arguments Env M : clear implicits.

(** ** A linear test model and a one-step solver

    The FMU of [dx/dt = A x]: its directional derivative is [v |-> A v].
    It keeps the calls of [set] it received, oldest first, and asks for
    [lin_events] further rounds of event iteration. *)

Definition dot (u v : vec) : Q :=
  fold_right Qplus 0%Q (List.map (fun p => (fst p * snd p)%Q) (List.combine u v)).

Definition mat_vec (a : matrix) (v : vec) : vec := List.map (fun row => dot row v) a.

Record linear_fmu : Type := mkLinear {
  lin_A : matrix;
  lin_names : list string;
  lin_x0 : vec;
  lin_x : vec;
  lin_time : Q;
  lin_events : nat;
  lin_set_calls : list (list string * list pyval)
}.

Fixpoint index_of (name : string) (names : list string) : Z :=
  match names with
  | [] => (-1)%Z
  | n :: rest => if String.eqb n name then 0%Z else
                   let i := index_of name rest in
                   if (i <? 0)%Z then i else (i + 1)%Z
  end.

Definition linear : FMUModelME2 linear_fmu := {|
  fmu_reset m := mkLinear (lin_A m) (lin_names m) (lin_x0 m) (lin_x0 m) 0%Q
                          (lin_events m) (lin_set_calls m);
  setup_experiment t m := mkLinear (lin_A m) (lin_names m) (lin_x0 m) (lin_x m) t
                                   (lin_events m) (lin_set_calls m);
  enter_initialization_mode m := m;
  exit_initialization_mode m := m;
  get_event_info m := Nat.ltb 0 (lin_events m);
  enter_event_mode m := m;
  event_update m := mkLinear (lin_A m) (lin_names m) (lin_x0 m) (lin_x m) (lin_time m)
                             (Nat.pred (lin_events m)) (lin_set_calls m);
  enter_continuous_time_mode m := m;
  get_variable_valueref name m := index_of name (lin_names m);
  get_states_list m := List.map Z.of_nat (seq 0 (List.length (lin_x0 m)));
  get_derivatives_list m :=
    List.map Z.of_nat (seq (List.length (lin_x0 m)) (List.length (lin_x0 m)));
  get_directional_derivative _ _ v m := mat_vec (lin_A m) v;
  set_time t m := mkLinear (lin_A m) (lin_names m) (lin_x0 m) (lin_x m) t
                           (lin_events m) (lin_set_calls m);
  continuous_states m := lin_x m;
  set_continuous_states x m := mkLinear (lin_A m) (lin_names m) (lin_x0 m) x (lin_time m)
                                        (lin_events m) (lin_set_calls m);
  get_derivatives m := mat_vec (lin_A m) (lin_x m);
  get_real idx m := List.map (fun i => nth (Z.to_nat i) (lin_x m) 0%Q) idx;
  fmu_set names values m := mkLinear (lin_A m) (lin_names m) (lin_x0 m) (lin_x m) (lin_time m)
                                     (lin_events m) (lin_set_calls m ++ [(names, values)])
|}.

(** One explicit Euler step over the whole span; the Jacobian is asked
    for once, as an implicit method would. *)
Definition euler_ivp {M : Type} : solver M :=
  fun f t_span y0 _ jac m =>
    let '(m1, dy) := f (fst t_span) y0 m in
    let '(m2, j) := jac (fst t_span) y0 m1 in
    match j with
    | Raise err => (m2, Raise err)
    | Return _ =>
        (m2, Return (List.map (fun p => [fst p; (fst p + (snd t_span - fst t_span) * snd p)%Q])
                              (List.combine y0 dy)))
    end.

(** A solver that gives up. *)
Definition failing_ivp {M : Type} : solver M :=
  fun _ _ _ _ _ m => (m, Raise (SolverError "integration failed")).

(** The test model [dx/dt = 2 x], [x(0) = 1], one state named [x]. *)
Definition growth : linear_fmu :=
  mkLinear [[2%Q]] ["x"] [1%Q] [1%Q] 0%Q 1 [].

Definition sum_reward (obs : frame) : Q := fold_right Qplus 0%Q (List.map snd obs).

(** A controller on the test model: one input [u], the output [x], steps
    of 1/10 from 0, at most [max_steps] of them, parameters [params]. *)
Definition demo_init (max_steps : option Z) (params : option (list (string * pyval)))
  : outcome (Env linear_fmu) :=
  __init__ (1 # 10) 0 sum_reward "LSODA" max_steps params
       (Some ["u"]) (Some [Col "x"]) (Some "episode") (mkHistory [] []) growth.

(** The controller as [__init__] leaves it (the test model is loadable, so
    the fallback is never taken). *)
Definition demo_fresh (max_steps : option Z) (params : option (list (string * pyval)))
  : Env linear_fmu :=
  match demo_init max_steps params with
  | Return e => e
  | Raise _ => mkEnv None "" growth sum_reward 0 0 Infinity None None None None false
                     (mkHistory [] []) [] [] []
  end.

(** ... and after [reset()], with the solver [ivp]. *)
Definition demo_started (ivp : solver linear_fmu) (max_steps : option Z)
    (params : option (list (string * pyval))) : Env linear_fmu :=
  match reset linear ivp 1 (demo_fresh max_steps params) with
  | Some (e, _) => e
  | None => demo_fresh max_steps params
  end.

(** A controller without FMU, for the recorder's schema: known columns
    [known], no measurements yet. *)
Definition schema_env (known : list colgroup) : Env unit :=
  mkEnv None "LSODA" tt (fun _ => 0%Q) 0 (1 # 10) Infinity None (Some (0%Q, 1 # 10)) None
        (Some []) false (mkHistory known []) [] (flatten known) [].

(** ** [render] and [close]

    Drawing is matplotlib's; what [render] asks to be drawn is kept as the
    list of its plots.  [fullmatch col] stands for
    [re.fullmatch(self.viz_col_regex, col)] being a match. *)

(** One [df.plot]: the columns of [df = self.history.df[cols]] and its
    index, [self.history.df.index * self.time_step_size]. *)
Record plot : Type := mkPlot {
  plot_cols : list string;
  plot_index : list Q
}.

(** [[col for col in cols if re.fullmatch(self.viz_col_regex, col)]]: an
    entry that is a list itself is no string, [re.fullmatch] raises. *)
Fixpoint select_cols (fullmatch : string -> bool) (cols : list colgroup) : outcome (list string) :=
  match cols with
  | [] => Return []
  | Col name :: rest =>
      match select_cols fullmatch rest with
      | Raise err => Raise err
      | Return r => Return (if fullmatch name then name :: r else r)
      end
  | Cols _ :: _ => Raise (TypeError "expected string or bytes-like object")
  end.

(** The index of a table of [n] rows, times the step size. *)
Definition scaled_index (n : nat) (step_size : Q) : list Q :=
  List.map (fun i => (inject_Z (Z.of_nat i) * step_size)%Q) (seq 0 n).

(** The loop of [render] over [self.history.structured_cols()]: the plots
    shown, and the exception that ended the loop, if one did. *)
Fixpoint render_groups (fullmatch : string -> bool) (index : list Q) (groups : list colgroup)
  : list plot * option exn :=
  match groups with
  | [] => ([], None)
  | g :: rest =>
      let cols := match g with
                  | Cols l => l
                  | Col _ => [g]
                  end in
      match select_cols fullmatch cols with
      | Raise err => ([], Some err)
      | Return [] => render_groups fullmatch index rest
      | Return selected =>
          let '(plots, raised) := render_groups fullmatch index rest in
          (mkPlot selected index :: plots, raised)
      end
  end.

Definition render {M : Type} (fullmatch : string -> bool) (e : Env M) (close : bool)
  : list plot * outcome bool :=
  match viz_mode e with
  | None => ([], Return true)
  | Some v =>
      if close
      then
        if String.eqb v "step"
        then ([], Return true)
        else
          let '(plots, raised) :=
            render_groups fullmatch
              (scaled_index (List.length (hist_rows (history e))) (time_step_size e))
              (history.structured_cols (history e)) in
          (plots, match raised with
                  | Some err => Raise err
                  | None => Return true
                  end)
      else ([], Return true)
  end.

Definition close {M : Type} (fullmatch : string -> bool) (e : Env M) : list plot * outcome bool :=
  render fullmatch e true.

(** ** Further notions of the properties *)

(** The FMU after [k] rounds of the event iteration. *)
Fixpoint event_rounds {M : Type} (fmu : FMUModelME2 M) (k : nat) (m : M) : M :=
  match k with
  | O => m
  | S j => event_rounds fmu j (event_update fmu (enter_event_mode fmu m))
  end.

(** The controller after the calls [step(a)], [a] running through
    [actions], when each call was made in a state that is not done and
    returned; [None] otherwise. *)
Fixpoint run_steps {M : Type} (fmu : FMUModelME2 M) (ivp : solver M)
    (actions : list action) (e : Env M) : option (Env M) :=
  match actions with
  | [] => Some e
  | a :: rest =>
      match is_done e, step fmu ivp e a with
      | Return false, (e1, _, Return _) => run_steps fmu ivp rest e1
      | _, _ => None
      end
  end.

(** What no call changes: the attributes set by [__init__] and never
    assigned again. *)
Definition same_configuration {M : Type} (e e' : Env M) : Prop :=
  viz_mode e' = viz_mode e /\ solver_method e' = solver_method e /\
  reward e' = reward e /\ time_start e' = time_start e /\
  time_step_size e' = time_step_size e /\ time_end e' = time_end e /\
  model_parameters e' = model_parameters e /\ record_states e' = record_states e /\
  model_input_names e' = model_input_names e /\
  model_output_names e' = model_output_names e.

(** A group of the schema that [render] can go through: a name, or a list
    of names. *)
Definition is_col (g : colgroup) : bool :=
  match g with
  | Col _ => true
  | Cols _ => false
  end.

Definition is_flat_group (g : colgroup) : bool :=
  match g with
  | Col _ => true
  | Cols l => forallb is_col l
  end.

Definition nonempty (l : list string) : bool :=
  match l with
  | [] => false
  | _ :: _ => true
  end.

(** A controller at the end of an episode of two rows, for [render]: the
    schema has the group of [a.i] and [a.v] and the single column [b]. *)
Definition viz_env (mode : option string) : Env unit :=
  mkEnv mode "LSODA" tt (fun _ => 0%Q) 0 (1 # 10) Infinity None (Some (0%Q, 1 # 10)) None
        (Some []) true
        (mkHistory [Cols [Col "a.i"; Col "a.v"]; Col "b"]
                   [[("a.i", 1%Q); ("a.v", 2%Q); ("b", 3%Q)];
                    [("a.i", 4%Q); ("a.v", 5%Q); ("b", 6%Q)]])
        [] ["a.i"; "a.v"; "b"] [].

(** The pattern that matches the names [a.i] and [b]. *)
Definition demo_match (name : string) : bool :=
  String.eqb name "a.i" || String.eqb name "b".

(** A test model without continuous states. *)
Definition stateless : linear_fmu := mkLinear [] [] [] [] 0%Q 0 [].

(** The items of [model_params] for time functions. *)
Definition callable_items (fs : list (string * (Q -> pyval))) : list (string * pyval) :=
  List.map (fun kf => (fst kf, VFun (snd kf))) fs.

(** ** Auxiliary notions of the properties *)

(** How the comprehension of [__init__] turns one item of [model_params]
    into an entry. *)
Definition lift_entry (p : string * pyval) : string * param_fun :=
  (fst p, match snd p with VFun f => Given f | _ => LambdaVal end).

(** The call whose second group overlaps the known column [a] in part. *)
Definition conflict_call : measurements_arg :=
  MList [([Col "x"], [("x", 1%Q)]); ([Col "a"; Col "y"], [("a", 2%Q); ("y", 3%Q)])].

(** The FMU as [reset] hands it to the event iteration. *)
Definition prepared {M : Type} (fmu : FMUModelME2 M) (e : Env M) : M :=
  exit_initialization_mode fmu
    (enter_initialization_mode fmu
       (setup_experiment fmu (time_start e)
          (setup_experiment fmu 0%Q (fmu_reset fmu (model e))))).

(** ** The time window in binary64

    The window is a float64 array in the source: each sum below is one
    rounded addition. *)

(** [np.array([self.time_start, self.time_start + self.time_step_size])] *)
Definition first_window_f64 (time_start time_step_size : float) : float * float :=
  (time_start, (time_start + time_step_size)%float).

(** [self.sim_time_interval += self.time_step_size]: each end on its
    own. *)
Definition advance_f64 (time_step_size : float) (w : float * float) : float * float :=
  ((fst w + time_step_size)%float, (snd w + time_step_size)%float).

(** The window after [k] steps that moved it. *)
Fixpoint window_after_f64 (k : nat) (time_start time_step_size : float) : float * float :=
  match k with
  | O => first_window_f64 time_start time_step_size
  | S j => advance_f64 time_step_size (window_after_f64 j time_start time_step_size)
  end.


(** [self.time_start + max_episode_steps * self.time_step_size], with
    [steps] the float of [max_episode_steps]. *)
Definition time_end_f64 (time_start steps time_step_size : float) : float :=
  (time_start + steps * time_step_size)%float.

(** [abs(self.sim_time_interval[1]) > self.time_end] *)
Definition is_done_f64 (w : float * float) (time_end : float) : bool :=
  PrimFloat.ltb time_end (PrimFloat.abs (snd w)).

(** The float that Python writes [0.1]. *)
Definition tenth_f64 : float := 0x1.999999999999ap-4%float.

(** The values of [is_done] after each of the calls [step(a)], [a] running
    through [actions]. *)
Fixpoint done_after_steps {M : Type} (fmu : FMUModelME2 M) (ivp : solver M)
    (actions : list action) (e : Env M) : list (outcome bool) :=
  match actions with
  | [] => []
  | a :: rest =>
      let e1 := fst (fst (step fmu ivp e a)) in
      is_done e1 :: done_after_steps fmu ivp rest e1
  end.

(** * Properties *)

(** ** [is_done] *)

Lemma exceeds_spec (x : Q) (limit : bound) :
  exceeds x limit = true <->
  match limit with
  | Finite l => (l < x)%Q
  | Infinity => False
  end.
Proof.
  destruct limit as [l|]; simpl.
  - rewrite negb_true_iff. split.
    + intros Hle. apply Qnot_le_lt. intros Hx.
      apply Qle_bool_iff in Hx. congruence.
    + intros Hlt. destruct (Qle_bool x l) eqn:Hb; [|reflexivity].
      apply Qle_bool_iff in Hb. exfalso. exact (Qlt_not_le _ _ Hlt Hb).
  - split; [discriminate | tauto].
Qed.

(** C6: once the window is set, [is_done] is [abs(t_end) > time_end] with
    the strict comparison; for [time_start = 0], steps of 1/10 and 5 steps
    at most, [time_end] is 1/2, a window that ends at 1/2 is not done and
    one that ends at 6/10 is. *)
Theorem is_done_strict {M : Type} (e : Env M) (t_start t_end : Q) :
  sim_time_interval e = Some (t_start, t_end) ->
  is_done e = Return (exceeds (Qabs t_end) (time_end e)) /\
  (is_done e = Return true <->
   match time_end e with
   | Finite l => (l < Qabs t_end)%Q
   | Infinity => False
   end) /\
  (forall reward_fun method params inputs outputs viz hist (loaded : M) e5,
      __init__ (1 # 10) 0 reward_fun method (Some 5%Z) params inputs outputs viz hist loaded
        = Return e5 ->
      (exists l, time_end e5 = Finite l /\ (l == 1 # 2)%Q) /\
      is_done (set_sim_time_interval (Some (t_start, 1 # 2)) e5) = Return false /\
      is_done (set_sim_time_interval (Some (t_start, 6 # 10)) e5) = Return true).
Proof.
  intros Hw. unfold is_done at 1 2. rewrite Hw. split; [reflexivity|]. split.
  - rewrite <- exceeds_spec. split; [congruence | intros ->; reflexivity].
  - intros reward_fun method params inputs outputs viz hist loaded e5 Hinit.
    unfold __init__ in Hinit.
    destruct inputs as [ins|]; [|discriminate].
    destruct outputs as [outs|]; [|discriminate].
    destruct (negb (viz_mode_known viz)); [discriminate|].
    injection Hinit as <-. simpl. split; [|split].
    + eexists. split; [reflexivity|]. reflexivity.
    + reflexivity.
    + reflexivity.
Qed.

(** The episode of the specification: five steps of 1/10 from 0; the
    window ends at 1/2 after the fourth call and at 6/10 after the fifth. *)
Example done_after_five_steps :
  done_after_steps linear euler_ivp (repeat (ActSeq [VNum 7]) 5)
                   (demo_started euler_ivp (Some 5%Z) None)
    = [Return false; Return false; Return false; Return false; Return true].
Proof. vm_compute. reflexivity. Qed.

Lemma is_done_strict_witness :
  sim_time_interval (demo_started euler_ivp (Some 5%Z) None) = Some (0%Q, (0 + (1 # 10))%Q) /\
  is_done (demo_started euler_ivp (Some 5%Z) None) = Return false.
Proof.
  split; [vm_compute; reflexivity|].
  destruct (is_done_strict (demo_started euler_ivp (Some 5%Z) None) 0 (0 + (1 # 10)))
    as [Hd _]; [vm_compute; reflexivity|].
  rewrite Hd. vm_compute. reflexivity.
Defined.

(** ** [step]: the early return and the length check *)

Lemma is_done_window {M : Type} (e : Env M) (d : bool) :
  is_done e = Return d -> exists t0 t1, sim_time_interval e = Some (t0, t1).
Proof.
  unfold is_done. destruct (sim_time_interval e) as [[t0 t1]|]; [eauto | discriminate].
Qed.

(** C3: in a state where [is_done] holds, [step] logs the warning, changes
    nothing (window and history included) and returns the tuple
    [(self.__state, None, True)]: three entries, no info dict. *)
Theorem step_when_done_returns_triple {M : Type} (fmu : FMUModelME2 M) (solve_ivp : solver M)
    (e : Env M) (a : action) :
  is_done e = Return true ->
  step fmu solve_ivp e a
    = (e, [LogWarning step_after_done_warning],
       Return [obj_of_state (__state e); ONone; OBool true]) /\
  (forall obs info,
      snd (step fmu solve_ivp e a) <> Return [obs; ONone; OBool true; ODict info]).
Proof.
  intros Hd. destruct (is_done_window e true Hd) as (t0 & t1 & Hw).
  assert (Hs : step fmu solve_ivp e a
               = (e, [LogWarning step_after_done_warning],
                  Return [obj_of_state (__state e); ONone; OBool true])).
  { unfold step. rewrite Hd, Hw. reflexivity. }
  split; [exact Hs|]. intros obs info. rewrite Hs. simpl. discriminate.
Qed.

Lemma step_when_done_returns_triple_witness :
  is_done (demo_started euler_ivp (Some 0%Z) None) = Return true /\
  step linear euler_ivp (demo_started euler_ivp (Some 0%Z) None) (ActSeq [VNum 1])
    = (demo_started euler_ivp (Some 0%Z) None, [LogWarning step_after_done_warning],
       Return [obj_of_state (__state (demo_started euler_ivp (Some 0%Z) None));
               ONone; OBool true]).
Proof.
  split; [vm_compute; reflexivity|].
  apply (step_when_done_returns_triple linear euler_ivp (demo_started euler_ivp (Some 0%Z) None)).
  vm_compute; reflexivity.
Defined.

(** C8: in a state that is not done, an action whose length differs from
    the number of declared inputs makes [step] log and raise the
    [ValueError] whose message holds the declared count and the count
    passed, and the controller is as before, so that a corrected call runs
    as if the failed one had not been made; an action of the declared
    length passes the check: nothing more is logged and the call goes on
    to push the values and simulate. *)
Theorem step_action_length {M : Type} (fmu : FMUModelME2 M) (solve_ivp : solver M)
    (e : Env M) (a : action) :
  is_done e = Return false ->
  let values := fst (as_sequence a) in
  let expected := List.length (model_input_names e) in
  let actual := List.length values in
  let message :=
    ("List of values for model inputs should be of the length " ++ str_of_nat expected
       ++ ",equal to the number of model inputs. Actual length " ++ str_of_nat actual)%string in
  (actual <> expected ->
   step fmu solve_ivp e a
     = (e, snd (as_sequence a) ++ [LogError message], Raise (ValueError message)) /\
   forall a', step fmu solve_ivp (fst (fst (step fmu solve_ivp e a))) a'
              = step fmu solve_ivp e a') /\
  (actual = expected ->
   exists t0 t1, sim_time_interval e = Some (t0, t1) /\
     step fmu solve_ivp e a
       = (fst (step_simulate fmu solve_ivp e t0 (fmu_set fmu (model_input_names e) values (model e))),
          snd (as_sequence a),
          snd (step_simulate fmu solve_ivp e t0 (fmu_set fmu (model_input_names e) values (model e))))).
Proof.
  intros Hd values expected actual message.
  destruct (is_done_window e false Hd) as (t0 & t1 & Hw).
  split.
  - intros Hne.
    assert (Hs : step fmu solve_ivp e a
                 = (e, snd (as_sequence a) ++ [LogError message], Raise (ValueError message))).
    { unfold step. rewrite Hd, Hw.
      subst values expected actual message.
      destruct (as_sequence a) as [vs logs]; simpl in *.
      apply Nat.eqb_neq in Hne. rewrite Hne. reflexivity. }
    split; [exact Hs|]. intros a'. rewrite Hs. reflexivity.
  - intros Heq. exists t0, t1. split; [exact Hw|].
    unfold step. rewrite Hd, Hw.
    subst values expected actual message.
    destruct (as_sequence a) as [vs logs]; simpl in *.
    apply Nat.eqb_eq in Heq. rewrite Heq. simpl.
    destruct (step_simulate fmu solve_ivp e t0 _) as [e1 res]. reflexivity.
Qed.

Lemma step_action_length_witness :
  is_done (demo_started euler_ivp (Some 5%Z) None) = Return false /\
  step linear euler_ivp (demo_started euler_ivp (Some 5%Z) None) (ActSeq [VNum 1; VNum 2])
    = (demo_started euler_ivp (Some 5%Z) None,
       [LogError (action_length_message 1 2)],
       Raise (ValueError (action_length_message 1 2))).
Proof.
  split; [vm_compute; reflexivity|].
  assert (Hd : is_done (demo_started euler_ivp (Some 5%Z) None) = Return false)
    by (vm_compute; reflexivity).
  destruct (step_action_length linear euler_ivp _ (ActSeq [VNum 1; VNum 2]) Hd) as [Hbad _].
  destruct Hbad as [Hs _]; [vm_compute; lia|].
  exact Hs.
Defined.

Lemma length_list_ascii_of_string (s : string) :
  List.length (list_ascii_of_string s) = String.length s.
Proof. induction s as [|c s IH]; simpl; congruence. Qed.

Lemma length_chars (s : string) : List.length (chars s) = String.length s.
Proof. unfold chars. rewrite List.length_map. apply length_list_ascii_of_string. Qed.

(** C10: a string action is iterable, so it is neither wrapped nor warned
    about; its characters, one value each, are what the length check
    counts: in a state that is not done a string of the declared length
    passes the check and its characters are pushed, any other string
    raises the length error. *)
Theorem step_string_action {M : Type} (fmu : FMUModelME2 M) (solve_ivp : solver M)
    (e : Env M) (s : string) :
  is_done e = Return false ->
  as_sequence (ActStr s)
    = (List.map (fun c => VStr (String c EmptyString)) (list_ascii_of_string s), []) /\
  List.length (fst (as_sequence (ActStr s))) = String.length s /\
  (String.length s <> List.length (model_input_names e) ->
   step fmu solve_ivp e (ActStr s)
     = (e, [LogError (action_length_message (List.length (model_input_names e))
                                            (String.length s))],
        Raise (ValueError (action_length_message (List.length (model_input_names e))
                                                 (String.length s))))) /\
  (String.length s = List.length (model_input_names e) ->
   exists t0 t1, sim_time_interval e = Some (t0, t1) /\
     step fmu solve_ivp e (ActStr s)
       = (fst (step_simulate fmu solve_ivp e t0
                 (fmu_set fmu (model_input_names e) (chars s) (model e))),
          [],
          snd (step_simulate fmu solve_ivp e t0
                 (fmu_set fmu (model_input_names e) (chars s) (model e))))).
Proof.
  intros Hd. destruct (is_done_window e false Hd) as (t0 & t1 & Hw).
  split; [reflexivity|]. split; [apply length_chars|]. split.
  - intros Hne. unfold step. rewrite Hd, Hw. simpl.
    rewrite length_chars. apply Nat.eqb_neq in Hne. rewrite Hne. reflexivity.
  - intros Heq. exists t0, t1. split; [exact Hw|].
    unfold step. rewrite Hd, Hw. simpl.
    rewrite length_chars. apply Nat.eqb_eq in Heq. rewrite Heq. simpl.
    destruct (step_simulate fmu solve_ivp e t0 _) as [e1 res]. reflexivity.
Qed.

Lemma step_string_action_witness :
  is_done (demo_started euler_ivp (Some 5%Z) None) = Return false /\
  lin_set_calls (model (fst (fst (step linear euler_ivp
                                    (demo_started euler_ivp (Some 5%Z) None) (ActStr "7")))))
    = [(["u"], [VStr "7"])] /\
  snd (step linear euler_ivp (demo_started euler_ivp (Some 5%Z) None) (ActStr "70"))
    = Raise (ValueError (action_length_message 1 2)).
Proof.
  assert (Hd : is_done (demo_started euler_ivp (Some 5%Z) None) = Return false)
    by (vm_compute; reflexivity).
  split; [exact Hd|].
  destruct (step_string_action linear euler_ivp _ "7" Hd) as (_ & _ & _ & Hok).
  destruct (step_string_action linear euler_ivp _ "70" Hd) as (_ & _ & Hbad & _).
  split.
  - destruct Hok as (t0 & t1 & _ & ->); [vm_compute; reflexivity|].
    vm_compute. reflexivity.
  - rewrite Hbad; [reflexivity | vm_compute; lia].
Defined.

(** ** [update_measurements] on a lone DataFrame *)

(** C5: handed a DataFrame, [update_measurements] never gets to the loop:
    the wrapping reads the attribute [colums], the call raises and the
    controller is as before; for a frame without a column of that label
    (here the one-column frame [i = 1]) the exception is the
    [AttributeError]. *)
Theorem update_measurements_dataframe_raises {M : Type} (e : Env M) (df : frame) :
  (exists err, update_measurements (MFrame df) e = (e, Raise err)) /\
  update_measurements (MFrame [("i", 1%Q)]) e
    = (e, Raise (AttributeError "'DataFrame' object has no attribute 'colums'")).
Proof.
  split; [|reflexivity].
  unfold update_measurements, as_pairs.
  destruct (df_getattr df "colums"); eauto.
Qed.

(** ** [_calc_jac] *)

Lemma ncols_identity (n : nat) : ncols (np_identity (S n)) = S n.
Proof.
  unfold np_identity. change (seq 0 (S n)) with (0 :: seq 1 n) at 2.
  simpl. rewrite List.length_map, List.length_seq. reflexivity.
Qed.

Lemma apply_along_axis0_identity (f : vec -> vec) (n : nat) :
  exists out, np_apply_along_axis0 f (np_identity (S n)) = Return out.
Proof.
  unfold np_apply_along_axis0, columns. rewrite ncols_identity.
  change (seq 0 (S n)) with (0 :: seq 1 n). simpl. eauto.
Qed.

(** C2: whatever the FMU's directional derivative is, [_calc_jac] returns
    the identity matrix of the dimension of the derivative vector: the
    columns [np.apply_along_axis] computes are dropped. *)
Theorem calc_jac_returns_identity {M : Type} (fmu : FMUModelME2 M) (t : Q) (x : vec) (m : M) :
  0 < List.length (get_derivatives_list fmu m) ->
  _calc_jac fmu t x m = (m, Return (np_identity (List.length (get_derivatives_list fmu m)))).
Proof.
  intros Hpos. unfold _calc_jac.
  destruct (List.length (get_derivatives_list fmu m)) as [|n]; [lia|].
  destruct (apply_along_axis0_identity
              (fun col => get_directional_derivative fmu (get_states_list fmu m)
                            (get_derivatives_list fmu m) col m) n) as [out ->].
  reflexivity.
Qed.

(** For [dx/dt = 2 x] the directional derivative is [v |-> 2 v] and the
    Jacobian is [[2]]; [_calc_jac] gives [[1]]. *)
Lemma calc_jac_returns_identity_witness :
  0 < List.length (get_derivatives_list linear growth) /\
  (forall v, get_directional_derivative linear (get_states_list linear growth)
               (get_derivatives_list linear growth) v growth = mat_vec [[2%Q]] v) /\
  _calc_jac linear 0 [1%Q] growth = (growth, Return [[1%Q]]).
Proof.
  split; [vm_compute; lia|]. split; [reflexivity|].
  rewrite (calc_jac_returns_identity linear 0 [1%Q] growth); [reflexivity | vm_compute; lia].
Defined.

(** The columns that are dropped are the Jacobian: on the identity,
    [np.apply_along_axis] with [v |-> A v] gives the entries of [A]. *)
Example apply_along_axis0_linear_2x2 :
  exists out,
    np_apply_along_axis0 (mat_vec [[2; 3]; [5; 7]]%Q) (np_identity 2) = Return out /\
    Forall2 (Forall2 Qeq) out [[2; 3]; [5; 7]]%Q.
Proof.
  eexists. split; [vm_compute; reflexivity|].
  repeat constructor; reflexivity.
Qed.

(** ** [model_params]: the lifted scalars *)

Lemma entries_lift_items (items : list (string * pyval)) (cell : option pyval) :
  entries (lift_items items cell) = List.map lift_entry items.
Proof.
  revert cell. induction items as [|[var val] rest IH]; intros cell; simpl; [reflexivity|].
  rewrite IH. reflexivity.
Qed.

Lemma val_cell_lift_items (front : list (string * pyval)) (last_var : string)
    (last_val : pyval) (cell : option pyval) :
  val_cell (lift_items (front ++ [(last_var, last_val)]) cell) = Some last_val.
Proof.
  revert cell. induction front as [|[var val] rest IH]; intros cell; simpl; [reflexivity|].
  apply IH.
Qed.

Lemma eval_entries_lifted (last_val : pyval) (t : Q) (items : list (string * pyval)) :
  eval_entries (Some last_val) t (List.map lift_entry items)
    = Return (List.map (fun p => (fst p, match snd p with
                                         | VFun f => f t
                                         | _ => last_val
                                         end)) items).
Proof.
  induction items as [|[var val] rest IH]; simpl; [reflexivity|].
  rewrite IH. destruct val; reflexivity.
Qed.

(** C1: every scalar of [model_params] is lifted to a function that gives
    the LAST value of the mapping, whatever the time: on [step] a scalar
    parameter is pushed with the value of the last entry, not with its
    own.  For [{'a': 1, 'b': 2}] the call pushed after the action is
    [set(('a', 'b'), (2, 2))]. *)
Theorem model_params_scalars_read_last_value
    (front : list (string * pyval)) (last_var : string) (last_val : pyval) (t : Q) :
  (exists p, lift_model_params (Some (front ++ [(last_var, last_val)])) = Some p /\
     eval_parameters p t
       = Return (List.map (fun kv => (fst kv, match snd kv with
                                              | VFun f => f t
                                              | _ => last_val
                                              end))
                          (front ++ [(last_var, last_val)]))) /\
  lin_set_calls
    (model (fst (fst (step linear euler_ivp
                        (demo_started euler_ivp (Some 5%Z)
                           (Some [("a", VNum 1); ("b", VNum 2)]))
                        (ActSeq [VNum 7])))))
    = [(["u"], [VNum 7]); (["a"; "b"], [VNum 2; VNum 2])].
Proof.
  split; [|vm_compute; reflexivity].
  exists (lift_items (front ++ [(last_var, last_val)]) None). split.
  { unfold lift_model_params.
    destruct (front ++ [(last_var, last_val)]) eqn:Hitems; [|reflexivity].
    destruct front; discriminate. }
  unfold eval_parameters.
  rewrite entries_lift_items, val_cell_lift_items.
  apply eval_entries_lifted.
Qed.

(** ** [update_measurements]: the schema *)

Lemma size_list_to_set_le (l : list string) :
  size (list_to_set l : gset string) <= List.length l.
Proof.
  induction l as [|x l IH].
  - rewrite list_to_set_nil, size_empty. simpl. lia.
  - rewrite list_to_set_cons, size_union_alt, size_singleton. simpl.
    assert (Hs : size ((list_to_set l : gset string) ∖ {[x]})
                 <= size (list_to_set l : gset string)).
    { apply subseteq_size. intros n. rewrite elem_of_difference. tauto. }
    lia.
Qed.

Lemma miss_all_new (cols : list colgroup) (h : History) :
  NoDup (flatten cols) ->
  (forall n, n ∈ flatten cols -> n ∉ history.cols h) ->
  miss_col_count cols h = List.length (flatten cols).
Proof.
  intros Hnd Hnew. unfold miss_col_count.
  replace ((list_to_set (flatten cols) : gset string) ∖ list_to_set (history.cols h))
    with (list_to_set (flatten cols) : gset string).
  - apply size_list_to_set, Hnd.
  - apply set_eq. intros n. rewrite elem_of_difference, !elem_of_list_to_set.
    split; [auto | tauto].
Qed.

Lemma miss_all_known (cols : list colgroup) (h : History) :
  (forall n, n ∈ flatten cols -> n ∈ history.cols h) ->
  miss_col_count cols h = 0.
Proof.
  intros Hknown. unfold miss_col_count. apply size_empty_iff.
  intros n. rewrite elem_of_difference, !elem_of_list_to_set.
  split; [intros [Hin Hout]; exfalso; auto | intros Hn; exfalso; set_solver].
Qed.

Lemma miss_partial (cols : list colgroup) (h : History) :
  (exists n, n ∈ flatten cols /\ n ∈ history.cols h) ->
  (exists n, n ∈ flatten cols /\ n ∉ history.cols h) ->
  0 < miss_col_count cols h < List.length (flatten cols).
Proof.
  intros (k & Hk & Hkk) (u & Hu & Huu). unfold miss_col_count. split.
  - assert (Hne : size ((list_to_set (flatten cols) : gset string)
                          ∖ list_to_set (history.cols h)) <> 0).
    { apply size_non_empty_iff. intros Hempty.
      apply (not_elem_of_empty (C := gset string) u). rewrite <- Hempty.
      rewrite elem_of_difference, !elem_of_list_to_set. auto. }
    lia.
  - pose (unknown := filter (fun n => n ∉ history.cols h) (flatten cols)).
    assert (Hsub : (list_to_set (flatten cols) : gset string) ∖ list_to_set (history.cols h)
                   ⊆ list_to_set unknown).
    { intros n. rewrite elem_of_difference, !elem_of_list_to_set.
      intros [Hin Hout]. subst unknown. apply list_elem_of_filter. auto. }
    apply subseteq_size in Hsub.
    pose proof (size_list_to_set_le unknown) as Hle.
    assert (Hlt : List.length unknown < List.length (flatten cols)).
    { subst unknown. apply (length_filter_lt _ _ k); [exact Hk | tauto]. }
    lia.
Qed.

Lemma register_all_app (pre rest : list (list colgroup * frame)) (h0 : History) :
  register_all (pre ++ rest) h0
    = match register_all pre h0 with
      | (h, None) => register_all rest h
      | (h, Some err) => (h, Some err)
      end.
Proof.
  revert h0. induction pre as [|[cols df] pre IH]; intros h0; simpl; [reflexivity|].
  destruct (register_cols cols h0) as [h1|err]; [apply IH | reflexivity].
Qed.

Lemma register_cols_new (cols : list colgroup) (h : History) :
  flatten cols <> [] ->
  NoDup (flatten cols) ->
  (forall n, n ∈ flatten cols -> n ∉ history.cols h) ->
  register_cols cols h = Return (history.set_cols (history.structured_cols h ++ cols) h).
Proof.
  intros Hne Hnd Hnew. unfold register_cols. rewrite (miss_all_new cols h Hnd Hnew).
  rewrite Nat.ltb_irrefl, andb_false_r.
  destruct (flatten cols); [contradiction | reflexivity].
Qed.

Lemma register_cols_known (cols : list colgroup) (h : History) :
  (forall n, n ∈ flatten cols -> n ∈ history.cols h) ->
  register_cols cols h = Return h.
Proof.
  intros Hknown. unfold register_cols. rewrite (miss_all_known cols h Hknown). reflexivity.
Qed.

Lemma register_cols_partial (cols : list colgroup) (h : History) :
  (exists n, n ∈ flatten cols /\ n ∈ history.cols h) ->
  (exists n, n ∈ flatten cols /\ n ∉ history.cols h) ->
  register_cols cols h = Raise (ValueError (columns_already_added cols (history.cols h))).
Proof.
  intros Hk Hu. unfold register_cols.
  destruct (miss_partial cols h Hk Hu) as [Hpos Hlt].
  apply Nat.ltb_lt in Hpos, Hlt. rewrite Hpos, Hlt. reflexivity.
Qed.

Lemma set_history_same {M : Type} (e : Env M) : set_history (history e) e = e.
Proof. destruct e. reflexivity. Qed.

(** What a call leaves when its last pair is [(cols, df)] and every round
    passes: the recorder of the last round and the frames side by side. *)
Lemma update_measurements_last {M : Type} (e : Env M)
    (pre : list (list colgroup * frame)) (cols : list colgroup) (df : frame) (h h1 : History) :
  register_all pre (history e) = (h, None) ->
  register_cols cols h = Return h1 ->
  update_measurements (MList (pre ++ [(cols, df)])) e
    = (set_measurements (Some (List.concat (List.map snd pre) ++ df)) (set_history h1 e),
       Return tt).
Proof.
  intros Hpre Hround. unfold update_measurements. simpl.
  rewrite register_all_app, Hpre. simpl. rewrite Hround.
  rewrite List.map_app. simpl. unfold pd_concat_axis1.
  destruct (List.map snd pre ++ [df]) eqn:Hl; [destruct (List.map snd pre); discriminate|].
  rewrite <- Hl, List.concat_app. simpl. rewrite List.app_nil_r. reflexivity.
Qed.

(** C4, as the claim has it, fails: the second group of [conflict_call]
    has the known name [a] and the new name [y], the call raises, and the
    schema has grown by the first group [x]. *)
Lemma update_measurements_conflict_after_growth :
  (exists n, n ∈ flatten [Col "a"; Col "y"] /\ n ∈ history.cols (history (schema_env [Col "a"]))) /\
  (exists n, n ∈ flatten [Col "a"; Col "y"] /\ n ∉ history.cols (history (schema_env [Col "a"]))) /\
  (exists err, snd (update_measurements conflict_call (schema_env [Col "a"])) = Raise err) /\
  history.structured_cols (history (fst (update_measurements conflict_call (schema_env [Col "a"]))))
    = [Col "a"; Col "x"] /\
  history.structured_cols (history (fst (update_measurements conflict_call (schema_env [Col "a"]))))
    <> history.structured_cols (history (schema_env [Col "a"])).
Proof.
  split; [exists "a"; split; apply (bool_decide_unpack _); vm_compute; exact I|].
  split; [exists "y"; split; apply (bool_decide_unpack _); vm_compute; exact I|].
  assert (Hs : history.structured_cols
                 (history (fst (update_measurements conflict_call (schema_env [Col "a"]))))
               = [Col "a"; Col "x"]) by (vm_compute; reflexivity).
  split; [eexists; vm_compute; reflexivity|].
  split; [exact Hs|]. rewrite Hs. vm_compute. discriminate.
Qed.

(** A group that repeats a name is refused although all its names are
    new: the count of missing names is taken of a set, the length of a
    list. *)
Example register_cols_repeated_name :
  exists err, register_cols [Col "x"; Col "x"] (mkHistory [Col "a"] []) = Raise err.
Proof. eexists. vm_compute. reflexivity. Qed.

(** C4 (amended): let the earlier pairs of a call have passed and left the
    recorder [h].  A group with at least one name, no name twice and no
    known name makes the schema [structured_cols() + cols]; a group whose
    names are all known leaves the schema as it is; in both cases a call
    that ends with the group stores the frames side by side.  A group with
    a known and an unknown name makes the call raise the [ValueError] at
    once: the stored measurements are as before the call, and the schema
    is what the earlier pairs made it, the schema from before the call when
    the group comes first. *)
Theorem update_measurements_schema {M : Type} (e : Env M)
    (pre post : list (list colgroup * frame)) (cols : list colgroup) (df : frame) (h : History) :
  register_all pre (history e) = (h, None) ->
  (flatten cols <> [] -> NoDup (flatten cols) ->
   (forall n, n ∈ flatten cols -> n ∉ history.cols h) ->
   update_measurements (MList (pre ++ [(cols, df)])) e
     = (set_measurements (Some (List.concat (List.map snd pre) ++ df))
          (set_history (history.set_cols (history.structured_cols h ++ cols) h) e),
        Return tt)) /\
  ((forall n, n ∈ flatten cols -> n ∈ history.cols h) ->
   update_measurements (MList (pre ++ [(cols, df)])) e
     = (set_measurements (Some (List.concat (List.map snd pre) ++ df)) (set_history h e),
        Return tt)) /\
  ((exists n, n ∈ flatten cols /\ n ∈ history.cols h) ->
   (exists n, n ∈ flatten cols /\ n ∉ history.cols h) ->
   update_measurements (MList (pre ++ (cols, df) :: post)) e
     = (set_history h e, Raise (ValueError (columns_already_added cols (history.cols h)))) /\
   __measurements (set_history h e) = __measurements e /\
   (pre = [] -> set_history h e = e)).
Proof.
  intros Hpre. split; [|split].
  - intros Hne Hnd Hnew.
    apply (update_measurements_last e pre cols df h _ Hpre).
    apply register_cols_new; assumption.
  - intros Hknown.
    apply (update_measurements_last e pre cols df h _ Hpre).
    apply register_cols_known; assumption.
  - intros Hk Hu. split; [|split].
    + unfold update_measurements. simpl.
      rewrite register_all_app, Hpre. simpl.
      rewrite (register_cols_partial cols h Hk Hu). reflexivity.
    + reflexivity.
    + intros ->. simpl in Hpre. injection Hpre as <-. apply set_history_same.
Qed.

Lemma update_measurements_schema_witness :
  register_all [([Col "x"], [("x", 1%Q)])] (history (schema_env [Col "a"]))
    = (mkHistory [Col "a"; Col "x"] [], None) /\
  update_measurements (MList [([Col "x"], [("x", 1%Q)]); ([Col "y"], [("y", 3%Q)])])
                      (schema_env [Col "a"])
    = (set_measurements (Some [("x", 1%Q); ("y", 3%Q)])
         (set_history (mkHistory [Col "a"; Col "x"; Col "y"] []) (schema_env [Col "a"])),
       Return tt) /\
  update_measurements (MList [([Col "x"], [("x", 1%Q)]); ([Col "a"], [("a", 2%Q)])])
                      (schema_env [Col "a"])
    = (set_measurements (Some [("x", 1%Q); ("a", 2%Q)])
         (set_history (mkHistory [Col "a"; Col "x"] []) (schema_env [Col "a"])),
       Return tt) /\
  update_measurements conflict_call (schema_env [Col "a"])
    = (set_history (mkHistory [Col "a"; Col "x"] []) (schema_env [Col "a"]),
       Raise (ValueError (columns_already_added [Col "a"; Col "y"] ["a"; "x"]))).
Proof.
  assert (Hpre : register_all [([Col "x"], [("x", 1%Q)])] (history (schema_env [Col "a"]))
                 = (mkHistory [Col "a"; Col "x"] [], None)) by (vm_compute; reflexivity).
  split; [exact Hpre|]. split; [|split].
  - destruct (update_measurements_schema (schema_env [Col "a"]) _ [] [Col "y"] [("y", 3%Q)] _ Hpre)
      as (Hnew & _ & _).
    apply Hnew.
    + discriminate.
    + apply (bool_decide_unpack _); vm_compute; exact I.
    + intros n Hn. apply list_elem_of_In in Hn. simpl in Hn. destruct Hn as [<-|[]].
      apply (bool_decide_unpack _); vm_compute; exact I.
  - destruct (update_measurements_schema (schema_env [Col "a"]) _ [] [Col "a"] [("a", 2%Q)] _ Hpre)
      as (_ & Hknown & _).
    apply Hknown.
    intros n Hn. apply list_elem_of_In in Hn. simpl in Hn. destruct Hn as [<-|[]].
    apply (bool_decide_unpack _); vm_compute; exact I.
  - destruct (update_measurements_schema (schema_env [Col "a"]) _ []
                [Col "a"; Col "y"] [("a", 2%Q); ("y", 3%Q)] _ Hpre) as (_ & _ & Hpartial).
    destruct Hpartial as (Hcall & _ & _).
    + exists "a". split; apply (bool_decide_unpack _); vm_compute; exact I.
    + exists "y". split; apply (bool_decide_unpack _); vm_compute; exact I.
    + exact Hcall.
Defined.

(** ** [reset] and the time window *)

Lemma event_iteration_more_fuel {M : Type} (fmu : FMUModelME2 M) (n fuel : nat) (m m' : M) :
  event_iteration fmu n m = Some m' -> n <= fuel -> event_iteration fmu fuel m = Some m'.
Proof.
  revert fuel m. induction n as [|n IH]; intros fuel m Hn Hle; [discriminate|].
  destruct fuel as [|fuel]; [lia|]. simpl in *.
  destruct (get_event_info fmu (event_update fmu (enter_event_mode fmu m))); [|exact Hn].
  apply IH; [exact Hn | lia].
Qed.

Lemma simulate_model {M : Type} (fmu : FMUModelME2 M) (solve_ivp : solver M) (e : Env M) :
  exists m', fst (_simulate fmu solve_ivp e) = set_model m' e.
Proof.
  unfold _simulate. destruct (sim_time_interval e) as [t_span|].
  - destruct (solve_ivp _ _ _ _ _ _) as [m1 [y|err]]; [|simpl; eauto].
    destruct (last_column y); simpl; eauto.
  - exists (model e). destruct e. reflexivity.
Qed.

Lemma df_join_empty (st : frame) : df_join st [] = Return st.
Proof.
  unfold df_join. simpl.
  assert (Hf : List.filter (fun _ : string => false) (frame_columns st) = []).
  { induction (frame_columns st) as [|c cs IH]; simpl; [reflexivity | exact IH]. }
  rewrite Hf, List.app_nil_r. reflexivity.
Qed.

(** With enough fuel for the event iteration, [reset] is [_simulate] on the
    controller with the new window and the emptied history, followed by
    the assignments of the state, the measurements and the first row. *)
Lemma reset_runs {M : Type} (fmu : FMUModelME2 M) (solve_ivp : solver M)
    (fuel n : nat) (e : Env M) (m4 : M) :
  event_iteration fmu n (prepared fmu e) = Some m4 ->
  n <= fuel ->
  let m5 := enter_continuous_time_mode fmu m4 in
  let idx := List.map (fun k => get_variable_valueref fmu k m5) (model_output_names e) in
  let e3 := set_history (history.reset (history e))
              (set_sim_time_interval (Some (time_start e, (time_start e + time_step_size e)%Q))
                 (set_model_output_idx idx (set_model m5 e))) in
  reset fmu solve_ivp fuel e
    = Some (match _simulate fmu solve_ivp e3 with
            | (e4, Raise err) => (e4, Raise err)
            | (e4, Return st) =>
                (set_history (history.append st (history.reset (history e)))
                   (set_measurements (Some []) (set_state (Some st) e4)),
                 Return st)
            end).
Proof.
  intros Hev Hle m5 idx e3. unfold reset, _setup_fmu. simpl.
  unfold prepared in Hev. rewrite (event_iteration_more_fuel fmu n fuel _ _ Hev Hle).
  match goal with
  | |- context [_simulate fmu solve_ivp ?x] => change x with e3
  end.
  destruct (simulate_model fmu solve_ivp e3) as [m' Hm'].
  destruct (_simulate fmu solve_ivp e3) as [e4 [st|err]]; [|reflexivity].
  simpl in Hm'. subst e4. rewrite df_join_empty. reflexivity.
Qed.

(** C7: when the event iteration of the FMU settles and the integration
    over the first window gives the observation [st], [reset] returns
    [st]; the window is [[time_start, time_start + time_step_size]], the
    history holds the one row [st] joined with the empty measurements
    (which is [st]), the pending measurements are the empty frame, and the
    schema of the history is kept. *)
Theorem reset_initial_state {M : Type} (fmu : FMUModelME2 M) (solve_ivp : solver M)
    (fuel n : nat) (e : Env M) (m4 m1 : M) (y : matrix) (y_last : vec) (st : frame) :
  let m5 := enter_continuous_time_mode fmu m4 in
  let idx := List.map (fun k => get_variable_valueref fmu k m5) (model_output_names e) in
  let window := (time_start e, (time_start e + time_step_size e)%Q) in
  event_iteration fmu n (prepared fmu e) = Some m4 ->
  n <= fuel ->
  solve_ivp (_get_deriv fmu) window (continuous_states fmu m5) (solver_method e)
            (_calc_jac fmu) m5 = (m1, Return y) ->
  last_column y = Return y_last ->
  df_of_row (get_real fmu idx (set_continuous_states fmu y_last m1)) (model_output_names e)
    = Return st ->
  exists e',
    reset fmu solve_ivp fuel e = Some (e', Return st) /\
    sim_time_interval e' = Some window /\
    df_join st [] = Return st /\
    hist_rows (history e') = [st] /\
    hist_structured (history e') = hist_structured (history e) /\
    __measurements e' = Some [] /\
    __state e' = Some st.
Proof.
  intros m5 idx window Hev Hle Hsol Hlast Hdf.
  rewrite (reset_runs fmu solve_ivp fuel n e m4 Hev Hle).
  fold m5. fold idx. unfold _simulate. simpl.
  fold window. rewrite Hsol, Hlast, Hdf.
  eexists. split; [reflexivity|]. simpl.
  repeat split. apply df_join_empty.
Qed.

Lemma reset_initial_state_witness :
  exists e',
    reset linear euler_ivp 1 (demo_fresh (Some 5%Z) None)
      = Some (e', Return [("x", (1 + ((0 + (1 # 10)) - 0) * (2 * 1 + 0))%Q)]) /\
    sim_time_interval e' = Some (0%Q, (0 + (1 # 10))%Q) /\
    hist_rows (history e') = [[("x", (1 + ((0 + (1 # 10)) - 0) * (2 * 1 + 0))%Q)]] /\
    __measurements e' = Some [].
Proof.
  destruct (reset_initial_state linear euler_ivp 1 1 (demo_fresh (Some 5%Z) None)
              (mkLinear [[2%Q]] ["x"] [1%Q] [1%Q] 0%Q 0 [])
              (mkLinear [[2%Q]] ["x"] [1%Q] [1%Q] 0%Q 0 [])
              [[1%Q; (1 + ((0 + (1 # 10)) - 0) * (2 * 1 + 0))%Q]]
              [(1 + ((0 + (1 # 10)) - 0) * (2 * 1 + 0))%Q]
              [("x", (1 + ((0 + (1 # 10)) - 0) * (2 * 1 + 0))%Q)])
    as (e' & Hreset & Hwin & _ & Hrows & _ & Hms & _).
  - reflexivity.
  - lia.
  - reflexivity.
  - reflexivity.
  - reflexivity.
  - exists e'. repeat split; assumption.
Defined.

(** ** [step] and the time window *)

Lemma is_done_value {M : Type} (e : Env M) (t0 t1 : Q) :
  sim_time_interval e = Some (t0, t1) ->
  is_done e = Return (exceeds (Qabs t1) (time_end e)).
Proof. intros Hw. unfold is_done. rewrite Hw. reflexivity. Qed.



(** The rounding also decides when an episode ends: with
    [time_start = 1], steps of 0.1 and two steps at most, the window
    ends at 1.2000000000000002 after the first step, above the end time
    1.2, so that the state is done one step early. *)
Example episode_ends_early_f64 :
  is_done_f64 (window_after_f64 0 1 tenth_f64) (time_end_f64 1 2 tenth_f64) = false /\
  is_done_f64 (window_after_f64 1 1 tenth_f64) (time_end_f64 1 2 tenth_f64) = true.
Proof. split; vm_compute; reflexivity. Qed.



(** A solver that raises leaves the window where it was: after [reset] it
    is the first window, after [step] the window of before. *)
Example window_kept_when_solver_raises :
  sim_time_interval (demo_started failing_ivp (Some 5%Z) None) = Some (0%Q, (0 + (1 # 10))%Q) /\
  snd (step linear failing_ivp (demo_started failing_ivp (Some 5%Z) None) (ActSeq [VNum 7]))
    = Raise (SolverError "integration failed") /\
  sim_time_interval
    (fst (fst (step linear failing_ivp (demo_started failing_ivp (Some 5%Z) None)
                    (ActSeq [VNum 7]))))
    = Some (0%Q, (0 + (1 # 10))%Q).
Proof. repeat split; vm_compute; reflexivity. Qed.

(** * Further properties of the controller *)

(** ** [__init__] *)

Lemma viz_mode_known_spec (v : option string) :
  viz_mode_known v = true <-> v = Some "episode" \/ v = Some "step" \/ v = None.
Proof.
  unfold viz_mode_known, viz_modes, existsb. destruct v as [s|].
  - rewrite !orb_false_r, orb_true_iff, !String.eqb_eq. split.
    + intros [<-| <-]; auto.
    + intros [H|[H|H]]; [injection H as <-; auto | injection H as <-; auto | discriminate].
  - split; auto.
Qed.

(** X1: [__init__] returns a controller only when [model_input] and
    [model_output] are given and [viz_mode] is one of ['episode'],
    ['step'], [None]; the controller then has [model_input] as its input
    names, [model_output] as the column groups of its history and the
    flat names of these groups as its output names, and neither window,
    state nor measurements. *)
Theorem init_returns_only_if {M : Type} (time_step t_start : Q) (reward_fun : frame -> Q)
    (method : string) (max_episode_steps : option Z)
    (model_params : option (list (string * pyval)))
    (model_input : option (list string)) (model_output : option (list colgroup))
    (viz : option string) (hist : History) (loaded : M) (e : Env M) :
  __init__ time_step t_start reward_fun method max_episode_steps model_params
    model_input model_output viz hist loaded = Return e ->
  model_input = Some (model_input_names e) /\
  model_output = Some (history.structured_cols (history e)) /\
  model_output_names e = flatten (history.structured_cols (history e)) /\
  (viz = Some "episode" \/ viz = Some "step" \/ viz = None) /\
  viz_mode e = viz /\
  hist_rows (history e) = hist_rows hist /\
  sim_time_interval e = None /\ __state e = None /\ __measurements e = None.
Proof.
  unfold __init__. destruct model_input as [ins|]; [|discriminate].
  destruct model_output as [outs|]; [|discriminate].
  destruct (viz_mode_known viz) eqn:Hviz; simpl; [|discriminate].
  intros H. injection H as <-. simpl.
  apply viz_mode_known_spec in Hviz. repeat split; auto.
Qed.

Lemma init_returns_only_if_witness :
  demo_init (Some 5%Z) None = Return (demo_fresh (Some 5%Z) None) /\
  model_output_names (demo_fresh (Some 5%Z) None)
    = flatten (history.structured_cols (history (demo_fresh (Some 5%Z) None))) /\
  sim_time_interval (demo_fresh (Some 5%Z) None) = None.
Proof.
  split; [reflexivity|].
  destruct (init_returns_only_if (1 # 10) 0 sum_reward "LSODA" (Some 5%Z) None
              (Some ["u"]) (Some [Col "x"]) (Some "episode") (mkHistory [] []) growth
              (demo_fresh (Some 5%Z) None) eq_refl)
    as (_ & _ & Hnames & _ & _ & _ & Hw & _).
  split; assumption.
Defined.

Lemma init_window_unset {M : Type} (time_step t_start : Q) (reward_fun : frame -> Q)
    (method : string) (max_episode_steps : option Z)
    (model_params : option (list (string * pyval)))
    (model_input : option (list string)) (model_output : option (list colgroup))
    (viz : option string) (hist : History) (loaded : M) (e : Env M) :
  __init__ time_step t_start reward_fun method max_episode_steps model_params
    model_input model_output viz hist loaded = Return e ->
  sim_time_interval e = None.
Proof.
  unfold __init__. destruct model_input, model_output; try discriminate.
  destruct (negb (viz_mode_known viz)); [discriminate|].
  intros H. injection H as <-. reflexivity.
Qed.

(** X2: a controller is of no use before [reset()]: as [__init__] leaves
    it, [is_done], [_simulate] and [step] raise the [TypeError] of
    subscripting [None], nothing is logged and the controller is as
    before. *)
Theorem step_before_reset {M : Type} (fmu : FMUModelME2 M) (solve_ivp : solver M)
    (time_step t_start : Q) (reward_fun : frame -> Q)
    (method : string) (max_episode_steps : option Z)
    (model_params : option (list (string * pyval)))
    (model_input : option (list string)) (model_output : option (list colgroup))
    (viz : option string) (hist : History) (loaded : M) (e : Env M) (a : action) :
  __init__ time_step t_start reward_fun method max_episode_steps model_params
    model_input model_output viz hist loaded = Return e ->
  is_done e = Raise (TypeError "'NoneType' object is not subscriptable") /\
  _simulate fmu solve_ivp e = (e, Raise (TypeError "'NoneType' object is not subscriptable")) /\
  step fmu solve_ivp e a = (e, [], Raise (TypeError "'NoneType' object is not subscriptable")).
Proof.
  intros Hinit. pose proof (init_window_unset _ _ _ _ _ _ _ _ _ _ _ _ Hinit) as Hw.
  unfold step, _simulate, is_done. rewrite Hw. repeat split.
Qed.

Lemma step_before_reset_witness :
  demo_init (Some 5%Z) None = Return (demo_fresh (Some 5%Z) None) /\
  step linear euler_ivp (demo_fresh (Some 5%Z) None) (ActSeq [VNum 7])
    = (demo_fresh (Some 5%Z) None, [],
       Raise (TypeError "'NoneType' object is not subscriptable")).
Proof.
  split; [reflexivity|].
  apply (step_before_reset linear euler_ivp (1 # 10) 0 sum_reward "LSODA" (Some 5%Z) None
           (Some ["u"]) (Some [Col "x"]) (Some "episode") (mkHistory [] []) growth).
  reflexivity.
Defined.

(** ** What [step] leaves alone *)

Ltac frame_cases :=
  simpl; unfold same_configuration; simpl;
  repeat split; auto; first [left; reflexivity | right; eexists; reflexivity].

Lemma step_simulate_frame {M : Type} (fmu : FMUModelME2 M) (solve_ivp : solver M)
    (e : Env M) (ts : Q) (m1 : M) :
  same_configuration e (fst (step_simulate fmu solve_ivp e ts m1)) /\
  model_output_idx (fst (step_simulate fmu solve_ivp e ts m1)) = model_output_idx e /\
  __measurements (fst (step_simulate fmu solve_ivp e ts m1)) = __measurements e /\
  hist_structured (history (fst (step_simulate fmu solve_ivp e ts m1)))
    = hist_structured (history e) /\
  (hist_rows (history (fst (step_simulate fmu solve_ivp e ts m1))) = hist_rows (history e) \/
   exists obs, hist_rows (history (fst (step_simulate fmu solve_ivp e ts m1)))
               = hist_rows (history e) ++ [obs]).
Proof.
  unfold step_simulate.
  destruct (push_parameters fmu e ts m1) as [m2|err]; [|frame_cases].
  destruct (simulate_model fmu solve_ivp (set_model m2 e)) as [m' Hm'].
  destruct (_simulate fmu solve_ivp (set_model m2 e)) as [e1 [st|err]];
    simpl in Hm'; subst e1; [|frame_cases].
  destruct (join_measurements st _) as [obs|err]; [|frame_cases].
  destruct (is_done _) as [d|err]; [|frame_cases].
  destruct (sim_time_interval _) as [[t0 t1]|]; [|frame_cases].
  destruct d; simpl; try destruct (@is_done M _); frame_cases.
Qed.

Lemma step_keeps {M : Type} (fmu : FMUModelME2 M) (solve_ivp : solver M)
    (e : Env M) (a : action) :
  same_configuration e (fst (fst (step fmu solve_ivp e a))) /\
  model_output_idx (fst (fst (step fmu solve_ivp e a))) = model_output_idx e /\
  __measurements (fst (fst (step fmu solve_ivp e a))) = __measurements e /\
  hist_structured (history (fst (fst (step fmu solve_ivp e a))))
    = hist_structured (history e) /\
  (hist_rows (history (fst (fst (step fmu solve_ivp e a)))) = hist_rows (history e) \/
   exists obs, hist_rows (history (fst (fst (step fmu solve_ivp e a))))
               = hist_rows (history e) ++ [obs]).
Proof.
  unfold step.
  destruct (is_done e) as [[|]|err]; destruct (sim_time_interval e) as [[t0 t1]|];
    try frame_cases.
  destruct (as_sequence a) as [values logs].
  destruct (negb _); [frame_cases|].
  pose proof (step_simulate_frame fmu solve_ivp e t0
                (fmu_set fmu (model_input_names e) values (model e))) as Hf.
  destruct (step_simulate fmu solve_ivp e t0 _) as [e1 res]. exact Hf.
Qed.

(** X7: whatever its outcome, [step] leaves the configuration, the value
    references of the outputs, the pending measurements and the schema of
    the history as they were, and the rows of the history are the rows of
    before, followed by at most one new row. *)
Theorem step_frame {M : Type} (fmu : FMUModelME2 M) (solve_ivp : solver M)
    (e : Env M) (a : action) :
  same_configuration e (fst (fst (step fmu solve_ivp e a))) /\
  model_output_idx (fst (fst (step fmu solve_ivp e a))) = model_output_idx e /\
  __measurements (fst (fst (step fmu solve_ivp e a))) = __measurements e /\
  hist_structured (history (fst (fst (step fmu solve_ivp e a))))
    = hist_structured (history e) /\
  (hist_rows (history (fst (fst (step fmu solve_ivp e a)))) = hist_rows (history e) \/
   exists obs, hist_rows (history (fst (fst (step fmu solve_ivp e a))))
               = hist_rows (history e) ++ [obs]).
Proof. apply step_keeps. Qed.

(** ** [is_done] at the ends of the range *)

(** X3: without [max_episode_steps] the end time is [np.inf] and the
    episode never ends: whatever calls of [step] are made, with whatever
    outcome, [is_done] does not hold afterwards. *)
Theorem unbounded_episode_never_done {M : Type} (fmu : FMUModelME2 M) (solve_ivp : solver M)
    (e : Env M) (actions : list action) :
  time_end e = Infinity ->
  time_end (fold_left (fun e1 a => fst (fst (step fmu solve_ivp e1 a))) actions e) = Infinity /\
  is_done (fold_left (fun e1 a => fst (fst (step fmu solve_ivp e1 a))) actions e) <> Return true.
Proof.
  revert e. induction actions as [|a rest IH]; intros e Hinf; simpl.
  - split; [exact Hinf|]. unfold is_done.
    destruct (sim_time_interval e) as [[t0 t1]|]; [|discriminate].
    rewrite Hinf. simpl. discriminate.
  - apply IH. destruct (step_keeps fmu solve_ivp e a) as [Hcfg _].
    destruct Hcfg as (_ & _ & _ & _ & _ & Hend & _). congruence.
Qed.

Lemma unbounded_episode_never_done_witness :
  time_end (demo_started euler_ivp None None) = Infinity /\
  is_done (fold_left (fun e1 a => fst (fst (step linear euler_ivp e1 a)))
                     (repeat (ActSeq [VNum 7]) 8) (demo_started euler_ivp None None))
    <> Return true.
Proof.
  split; [reflexivity|].
  apply (unbounded_episode_never_done linear euler_ivp (demo_started euler_ivp None None)).
  reflexivity.
Defined.

(** X4: [is_done] compares the absolute value of the window's end with
    [time_end], so with a negative [time_end] every state with a window is
    done: [step] returns at once and changes nothing. *)
Theorem negative_time_end_always_done {M : Type} (fmu : FMUModelME2 M) (solve_ivp : solver M)
    (e : Env M) (a : action) (t0 t1 l : Q) :
  sim_time_interval e = Some (t0, t1) ->
  time_end e = Finite l ->
  (l < 0)%Q ->
  is_done e = Return true /\ fst (fst (step fmu solve_ivp e a)) = e.
Proof.
  intros Hw Hend Hneg.
  assert (Hd : is_done e = Return true).
  { rewrite (is_done_value e t0 t1 Hw). f_equal. apply exceeds_spec. rewrite Hend.
    apply Qlt_le_trans with (y := 0%Q); [exact Hneg | apply Qabs_nonneg]. }
  split; [exact Hd|]. unfold step. rewrite Hd, Hw. reflexivity.
Qed.

Lemma negative_time_end_always_done_witness :
  (-1 + 5 * (1 # 10) < 0)%Q /\
  is_done (mkEnv None "LSODA" growth sum_reward (-1) (1 # 10) (Finite (-1 + 5 * (1 # 10)))
                 None (Some ((-1)%Q, (-1 + (1 # 10))%Q)) None (Some []) false
                 (mkHistory [Col "x"] []) ["u"] ["x"] [0%Z])
    = Return true.
Proof.
  split; [vm_compute; reflexivity|].
  apply (negative_time_end_always_done linear euler_ivp _ (ActSeq [VNum 7])
           (-1) (-1 + (1 # 10)) (-1 + 5 * (1 # 10))); [reflexivity | reflexivity |].
  vm_compute. reflexivity.
Defined.

(** ** [step]: the action and the returned tuple *)

(** X5: a bare number as action is the one-element list of it: the
    controller reached and the value returned or exception raised are the
    same; the only difference is the warning about the bare number, logged
    first, and only in a state that is not done. *)
Theorem step_scalar_as_singleton {M : Type} (fmu : FMUModelME2 M) (solve_ivp : solver M)
    (e : Env M) (v : Q) :
  fst (fst (step fmu solve_ivp e (ActScalar v)))
    = fst (fst (step fmu solve_ivp e (ActSeq [VNum v]))) /\
  snd (step fmu solve_ivp e (ActScalar v)) = snd (step fmu solve_ivp e (ActSeq [VNum v])) /\
  snd (fst (step fmu solve_ivp e (ActScalar v)))
    = match is_done e with
      | Return false =>
          LogWarning scalar_action_warning :: snd (fst (step fmu solve_ivp e (ActSeq [VNum v])))
      | _ => snd (fst (step fmu solve_ivp e (ActSeq [VNum v])))
      end.
Proof.
  destruct (is_done e) as [[|]|err] eqn:Hd.
  - destruct (is_done_window e true Hd) as (t0 & t1 & Hw).
    unfold step. rewrite Hd, Hw. repeat split; reflexivity.
  - destruct (is_done_window e false Hd) as (t0 & t1 & Hw).
    unfold step. rewrite Hd, Hw. simpl.
    destruct (negb _); [repeat split; reflexivity|].
    destruct (step_simulate fmu solve_ivp e t0 _) as [e1 res]. repeat split; reflexivity.
  - unfold step. rewrite Hd.
    destruct (sim_time_interval e) as [[t0 t1]|]; repeat split; reflexivity.
Qed.

(** X6: a step from a state that is not done, with an action of the
    declared length, whose integration gives the observation [st] and
    whose join with the pending measurements gives [obs], returns
    [(obs, reward_fun(obs), done, {})], where [done] is [is_done] of the
    window already moved on, that is of the NEXT step; [st] is the new
    state, [obs] the new last row of the history. *)
Theorem step_returns_observation {M : Type} (fmu : FMUModelME2 M) (solve_ivp : solver M)
    (e e1 : Env M) (a : action) (t0 t1 : Q) (m2 : M) (st obs : frame) :
  is_done e = Return false ->
  sim_time_interval e = Some (t0, t1) ->
  List.length (fst (as_sequence a)) = List.length (model_input_names e) ->
  push_parameters fmu e t0
    (fmu_set fmu (model_input_names e) (fst (as_sequence a)) (model e)) = Return m2 ->
  _simulate fmu solve_ivp (set_model m2 e) = (e1, Return st) ->
  join_measurements st (__measurements e) = Return obs ->
  snd (step fmu solve_ivp e a)
    = Return [OFrame obs; ONum (reward e obs);
              OBool (exceeds (Qabs (t1 + time_step_size e)) (time_end e)); ODict []] /\
  snd (fst (step fmu solve_ivp e a)) = snd (as_sequence a) /\
  __state (fst (fst (step fmu solve_ivp e a))) = Some st /\
  hist_rows (history (fst (fst (step fmu solve_ivp e a)))) = hist_rows (history e) ++ [obs] /\
  sim_time_interval (fst (fst (step fmu solve_ivp e a)))
    = Some ((t0 + time_step_size e)%Q, (t1 + time_step_size e)%Q) /\
  model (fst (fst (step fmu solve_ivp e a))) = model e1.
Proof.
  intros Hd Hw Hlen Hpush Hsim Hjoin.
  pose proof Hd as Hd'. rewrite (is_done_value e t0 t1 Hw) in Hd'. injection Hd' as Hd'.
  destruct (simulate_model fmu solve_ivp (set_model m2 e)) as [m' Hm'].
  rewrite Hsim in Hm'. simpl in Hm'. subst e1.
  unfold step. rewrite Hd, Hw.
  destruct (as_sequence a) as [values logs]. simpl in Hlen, Hpush |- *.
  apply Nat.eqb_eq in Hlen. rewrite Hlen. simpl.
  unfold step_simulate. rewrite Hpush, Hsim. simpl. rewrite Hjoin.
  unfold is_done. simpl. rewrite Hw, Hd'. simpl.
  repeat split; reflexivity.
Qed.

Lemma step_returns_observation_witness :
  is_done (demo_started euler_ivp (Some 1%Z) None) = Return false /\
  exists st,
    snd (step linear euler_ivp (demo_started euler_ivp (Some 1%Z) None) (ActSeq [VNum 7]))
      = Return [OFrame st; ONum (reward (demo_started euler_ivp (Some 1%Z) None) st);
                OBool (exceeds (Qabs (0 + (1 # 10)
                                      + time_step_size (demo_started euler_ivp (Some 1%Z) None)))
                               (time_end (demo_started euler_ivp (Some 1%Z) None)));
                ODict []].
Proof.
  assert (Hd : is_done (demo_started euler_ivp (Some 1%Z) None) = Return false)
    by (vm_compute; reflexivity).
  split; [exact Hd|].
  pose (m2 := fmu_set linear ["u"] [VNum 7] (model (demo_started euler_ivp (Some 1%Z) None))).
  pose (sim := _simulate linear euler_ivp
                 (set_model m2 (demo_started euler_ivp (Some 1%Z) None))).
  pose (st := match snd sim with
              | Return st => st
              | Raise _ => []
              end).
  exists st.
  apply (step_returns_observation linear euler_ivp
           (demo_started euler_ivp (Some 1%Z) None) (fst sim) (ActSeq [VNum 7])
           0%Q (0 + (1 # 10))%Q m2 st st);
    [exact Hd | vm_compute; reflexivity | vm_compute; reflexivity | vm_compute; reflexivity
    | vm_compute; reflexivity | vm_compute; reflexivity].
Defined.

(** ** When the integration or the join fails *)

(** X8: an exception of the solver leaves [step] as it is: the action and
    the parameters have been pushed and the FMU is as the solver left it,
    but the state, the history, the window and the measurements are those
    of before the call. *)
Theorem step_solver_failure {M : Type} (fmu : FMUModelME2 M) (solve_ivp : solver M)
    (e : Env M) (a : action) (t0 t1 : Q) (m2 m3 : M) (err : exn) :
  is_done e = Return false ->
  sim_time_interval e = Some (t0, t1) ->
  List.length (fst (as_sequence a)) = List.length (model_input_names e) ->
  push_parameters fmu e t0
    (fmu_set fmu (model_input_names e) (fst (as_sequence a)) (model e)) = Return m2 ->
  solve_ivp (_get_deriv fmu) (t0, t1) (continuous_states fmu m2) (solver_method e)
            (_calc_jac fmu) m2 = (m3, Raise err) ->
  step fmu solve_ivp e a = (set_model m3 e, snd (as_sequence a), Raise err).
Proof.
  intros Hd Hw Hlen Hpush Hsol.
  unfold step. rewrite Hd, Hw.
  destruct (as_sequence a) as [values logs]. simpl in Hlen, Hpush |- *.
  apply Nat.eqb_eq in Hlen. rewrite Hlen. simpl.
  unfold step_simulate. rewrite Hpush. unfold _simulate. simpl. rewrite Hw, Hsol.
  reflexivity.
Qed.

Lemma step_solver_failure_witness :
  is_done (demo_started failing_ivp (Some 5%Z) None) = Return false /\
  step linear failing_ivp (demo_started failing_ivp (Some 5%Z) None) (ActSeq [VNum 7])
    = (set_model (fmu_set linear ["u"] [VNum 7] (model (demo_started failing_ivp (Some 5%Z) None)))
                 (demo_started failing_ivp (Some 5%Z) None),
       [], Raise (SolverError "integration failed")).
Proof.
  assert (Hd : is_done (demo_started failing_ivp (Some 5%Z) None) = Return false)
    by (vm_compute; reflexivity).
  split; [exact Hd|].
  apply (step_solver_failure linear failing_ivp _ (ActSeq [VNum 7]) 0%Q (0 + (1 # 10))%Q
           (fmu_set linear ["u"] [VNum 7] (model (demo_started failing_ivp (Some 5%Z) None))));
    [exact Hd | vm_compute; reflexivity | vm_compute; reflexivity | vm_compute; reflexivity
    | vm_compute; reflexivity].
Defined.

(** X9: an exception of the solver during [reset] leaves the new window
    and the emptied history, but not a new state: the state and the
    measurements are the stale ones of before the call. *)
Theorem reset_solver_failure {M : Type} (fmu : FMUModelME2 M) (solve_ivp : solver M)
    (fuel n : nat) (e : Env M) (m4 m3 : M) (err : exn) :
  event_iteration fmu n (prepared fmu e) = Some m4 ->
  n <= fuel ->
  solve_ivp (_get_deriv fmu) (time_start e, (time_start e + time_step_size e)%Q)
            (continuous_states fmu (enter_continuous_time_mode fmu m4)) (solver_method e)
            (_calc_jac fmu) (enter_continuous_time_mode fmu m4) = (m3, Raise err) ->
  exists e',
    reset fmu solve_ivp fuel e = Some (e', Raise err) /\
    sim_time_interval e' = Some (time_start e, (time_start e + time_step_size e)%Q) /\
    hist_rows (history e') = [] /\
    hist_structured (history e') = hist_structured (history e) /\
    __state e' = __state e /\
    __measurements e' = __measurements e.
Proof.
  intros Hev Hle Hsol.
  rewrite (reset_runs fmu solve_ivp fuel n e m4 Hev Hle).
  unfold _simulate. simpl. rewrite Hsol.
  eexists. split; [reflexivity|]. simpl. repeat split; reflexivity.
Qed.

Lemma reset_solver_failure_witness :
  exists e',
    reset linear failing_ivp 1 (demo_fresh (Some 5%Z) None)
      = Some (e', Raise (SolverError "integration failed")) /\
    hist_rows (history e') = [] /\ __state e' = None.
Proof.
  destruct (reset_solver_failure linear failing_ivp 1 1 (demo_fresh (Some 5%Z) None)
              (mkLinear [[2%Q]] ["x"] [1%Q] [1%Q] 0%Q 0 [])
              (mkLinear [[2%Q]] ["x"] [1%Q] [1%Q] 0%Q 0 [])
              (SolverError "integration failed"))
    as (e' & Hr & _ & Hrows & _ & Hst & _); [reflexivity | lia | reflexivity |].
  exists e'. split; [exact Hr|]. split; [exact Hrows | exact Hst].
Defined.

Lemma df_join_overlap (left right : frame) (n : string) :
  In n (frame_columns left) -> In n (frame_columns right) ->
  exists msg, df_join left right = Raise (ValueError msg).
Proof.
  intros Hl Hr. unfold df_join.
  destruct (List.filter _ (frame_columns left)) as [|c cs] eqn:Hf; [|eauto].
  exfalso.
  assert (Hin : In n (List.filter (fun k => existsb (String.eqb k) (frame_columns right))
                                  (frame_columns left))).
  { apply List.filter_In. split; [exact Hl|].
    apply List.existsb_exists. exists n. split; [exact Hr | apply String.eqb_refl]. }
  rewrite Hf in Hin. exact Hin.
Qed.

(** X10: when a pending measurement has a column label that is also a
    label of the observation, every step raises the [ValueError] of the
    join, after the integration: the FMU and the state are the new ones,
    but no row is appended and the window does not move. *)
Theorem step_measurement_overlap {M : Type} (fmu : FMUModelME2 M) (solve_ivp : solver M)
    (e e1 : Env M) (a : action) (t0 t1 : Q) (m2 : M) (st ms : frame) (n : string) :
  is_done e = Return false ->
  sim_time_interval e = Some (t0, t1) ->
  List.length (fst (as_sequence a)) = List.length (model_input_names e) ->
  push_parameters fmu e t0
    (fmu_set fmu (model_input_names e) (fst (as_sequence a)) (model e)) = Return m2 ->
  _simulate fmu solve_ivp (set_model m2 e) = (e1, Return st) ->
  __measurements e = Some ms ->
  In n (frame_columns st) -> In n (frame_columns ms) ->
  exists msg,
    snd (step fmu solve_ivp e a) = Raise (ValueError msg) /\
    __state (fst (fst (step fmu solve_ivp e a))) = Some st /\
    model (fst (fst (step fmu solve_ivp e a))) = model e1 /\
    history (fst (fst (step fmu solve_ivp e a))) = history e /\
    sim_time_interval (fst (fst (step fmu solve_ivp e a))) = Some (t0, t1).
Proof.
  intros Hd Hw Hlen Hpush Hsim Hms Hst Hin.
  destruct (df_join_overlap st ms n Hst Hin) as [msg Hjoin].
  destruct (simulate_model fmu solve_ivp (set_model m2 e)) as [m' Hm'].
  rewrite Hsim in Hm'. simpl in Hm'. subst e1.
  exists msg. unfold step. rewrite Hd, Hw.
  destruct (as_sequence a) as [values logs]. simpl in Hlen, Hpush |- *.
  apply Nat.eqb_eq in Hlen. rewrite Hlen. simpl.
  unfold step_simulate. rewrite Hpush, Hsim. simpl. rewrite Hms. simpl. rewrite Hjoin.
  simpl. repeat split; auto.
Qed.

Lemma step_measurement_overlap_witness :
  exists msg,
    snd (step linear euler_ivp
              (set_measurements (Some [("x", 5%Q)]) (demo_started euler_ivp (Some 5%Z) None))
              (ActSeq [VNum 7]))
      = Raise (ValueError msg).
Proof.
  pose (e := set_measurements (Some [("x", 5%Q)]) (demo_started euler_ivp (Some 5%Z) None)).
  pose (m2 := fmu_set linear ["u"] [VNum 7] (model e)).
  pose (sim := _simulate linear euler_ivp (set_model m2 e)).
  pose (st := match snd sim with
              | Return st => st
              | Raise _ => []
              end).
  destruct (step_measurement_overlap linear euler_ivp e (fst sim) (ActSeq [VNum 7])
              0%Q (0 + (1 # 10))%Q m2 st [("x", 5%Q)] "x") as (msg & Hret & _);
    [vm_compute; reflexivity | vm_compute; reflexivity | vm_compute; reflexivity
    | vm_compute; reflexivity | vm_compute; reflexivity | vm_compute; reflexivity
    | vm_compute; auto | vm_compute; auto |].
  exists msg. exact Hret.
Defined.

(** ** The observation *)

Lemma map_fst_combine (names : list string) (obs : list Q) :
  List.length obs = List.length names -> List.map fst (List.combine names obs) = names.
Proof.
  revert obs. induction names as [|n names IH]; intros [|o obs] Hlen; simpl in *;
    try reflexivity; try discriminate.
  f_equal. apply IH. lia.
Qed.

Lemma df_of_row_columns (obs : list Q) (names : list string) (df : frame) :
  df_of_row obs names = Return df -> frame_columns df = names.
Proof.
  unfold df_of_row. destruct (Nat.eqb _ _) eqn:Hlen; [|discriminate].
  intros H. injection H as <-. apply map_fst_combine. apply Nat.eqb_eq, Hlen.
Qed.

Lemma simulate_columns {M : Type} (fmu : FMUModelME2 M) (solve_ivp : solver M)
    (e e1 : Env M) (st : frame) :
  _simulate fmu solve_ivp e = (e1, Return st) -> frame_columns st = model_output_names e.
Proof.
  unfold _simulate. destruct (sim_time_interval e) as [t_span|]; [|discriminate].
  destruct (solve_ivp _ _ _ _ _ _) as [m1 [y|err]]; [|discriminate].
  destruct (last_column y) as [y_last|err]; [|discriminate].
  intros H. injection H as _ H. apply (df_of_row_columns _ _ _ H).
Qed.

(** X11: the observation is keyed by the declared output names, in their
    order: what [reset] returns has exactly these column labels, and so
    has the state it leaves. *)
Theorem reset_observation_columns {M : Type} (fmu : FMUModelME2 M) (solve_ivp : solver M)
    (fuel : nat) (e e' : Env M) (st : frame) :
  reset fmu solve_ivp fuel e = Some (e', Return st) ->
  frame_columns st = model_output_names e /\
  __state e' = Some st /\
  model_output_names e' = model_output_names e.
Proof.
  unfold reset, _setup_fmu.
  destruct (event_iteration fmu fuel _) as [m4|]; [|discriminate].
  match goal with
  | |- context [_simulate fmu solve_ivp ?x] =>
      destruct (simulate_model fmu solve_ivp x) as [m' Hm'];
      destruct (_simulate fmu solve_ivp x) as [e4 [st0|err]] eqn:Hsim
  end; [|discriminate].
  simpl in Hm'. subst e4. rewrite df_join_empty.
  intros H. injection H as <- <-.
  apply simulate_columns in Hsim. simpl in Hsim. auto.
Qed.

Lemma reset_observation_columns_witness :
  exists e' st,
    reset linear euler_ivp 1 (demo_fresh (Some 5%Z) None) = Some (e', Return st) /\
    frame_columns st = ["x"].
Proof.
  destruct (reset linear euler_ivp 1 (demo_fresh (Some 5%Z) None)) as [[e' [st|err]]|] eqn:Hr;
    [|vm_compute in Hr; discriminate | vm_compute in Hr; discriminate].
  exists e', st. split; [reflexivity|].
  apply (reset_observation_columns linear euler_ivp 1 (demo_fresh (Some 5%Z) None) e' st Hr).
Defined.

(** ** [update_measurements]: further properties *)

Lemma flatten_app (a b : list colgroup) : flatten (a ++ b) = flatten a ++ flatten b.
Proof. unfold flatten. rewrite List.map_app, List.concat_app. reflexivity. Qed.

(** X12: [update_measurements([])] raises the [ValueError] of
    [pd.concat] on an empty list; the controller is as before. *)
Theorem update_measurements_empty_list {M : Type} (e : Env M) :
  update_measurements (MList []) e = (e, Raise (ValueError "No objects to concatenate")).
Proof.
  unfold update_measurements. simpl. rewrite set_history_same. reflexivity.
Qed.

Lemma register_cols_extends (cols : list colgroup) (h h1 : History) :
  register_cols cols h = Return h1 ->
  hist_rows h1 = hist_rows h /\
  exists added, hist_structured h1 = hist_structured h ++ added.
Proof.
  unfold register_cols. destruct (_ && _); [discriminate|].
  destruct (negb _); intros H; injection H as <-; simpl.
  - split; [reflexivity|]. exists cols. reflexivity.
  - split; [reflexivity|]. exists []. rewrite List.app_nil_r. reflexivity.
Qed.

Lemma register_all_extends (ms : list (list colgroup * frame)) (h : History) :
  hist_rows (fst (register_all ms h)) = hist_rows h /\
  exists added, hist_structured (fst (register_all ms h)) = hist_structured h ++ added.
Proof.
  revert h. induction ms as [|[cols df] ms IH]; intros h; simpl.
  - split; [reflexivity|]. exists []. rewrite List.app_nil_r. reflexivity.
  - destruct (register_cols cols h) as [h1|err] eqn:Hr; simpl.
    + destruct (register_cols_extends cols h h1 Hr) as [Hrows [add1 Hadd1]].
      destruct (IH h1) as [Hrows' [add2 Hadd2]].
      split; [congruence|]. exists (add1 ++ add2).
      rewrite Hadd2, Hadd1, List.app_assoc. reflexivity.
    + split; [reflexivity|]. exists []. rewrite List.app_nil_r. reflexivity.
Qed.

(** X13: whatever its argument and its outcome, [update_measurements]
    touches the schema of the history and the pending measurements only:
    the schema is the one of before with groups added at its end, so no
    column is ever forgotten, and the rows, the window, the state and the
    FMU are as before. *)
Theorem update_measurements_schema_grows {M : Type} (e : Env M) (arg : measurements_arg) :
  (exists added,
      history.structured_cols (history (fst (update_measurements arg e)))
        = history.structured_cols (history e) ++ added /\
      history.cols (history (fst (update_measurements arg e)))
        = history.cols (history e) ++ flatten added) /\
  hist_rows (history (fst (update_measurements arg e))) = hist_rows (history e) /\
  sim_time_interval (fst (update_measurements arg e)) = sim_time_interval e /\
  __state (fst (update_measurements arg e)) = __state e /\
  model (fst (update_measurements arg e)) = model e.
Proof.
  assert (Hgrow : forall h h', (exists added, hist_structured h' = hist_structured h ++ added) ->
            exists added, history.structured_cols h' = history.structured_cols h ++ added /\
                          history.cols h' = history.cols h ++ flatten added).
  { intros h h' [added Ha]. exists added. unfold history.structured_cols, history.cols.
    rewrite Ha, flatten_app. auto. }
  unfold update_measurements.
  destruct (as_pairs arg) as [pairs|err]; simpl.
  - destruct (register_all_extends pairs (history e)) as [Hrows Hadd].
    destruct (register_all pairs (history e)) as [h raised]. simpl in Hrows, Hadd.
    destruct raised as [err|]; simpl; [auto|].
    destruct (pd_concat_axis1 _); simpl; auto.
  - split; [|auto]. apply Hgrow. exists []. rewrite List.app_nil_r. reflexivity.
Qed.

(** X14: a call that returns has stored the frames of its pairs side by
    side, in the order of the pairs, whatever measurements were pending
    before: measurements are replaced, not merged. *)
Theorem update_measurements_replaces {M : Type} (e : Env M)
    (pairs : list (list colgroup * frame)) :
  snd (update_measurements (MList pairs) e) = Return tt ->
  pairs <> [] /\
  __measurements (fst (update_measurements (MList pairs) e))
    = Some (List.concat (List.map snd pairs)) /\
  forall stale,
    __measurements (fst (update_measurements (MList pairs) (set_measurements stale e)))
      = Some (List.concat (List.map snd pairs)).
Proof.
  unfold update_measurements. simpl.
  destruct (register_all pairs (history e)) as [h raised].
  destruct raised as [err|]; [discriminate|].
  destruct pairs as [|p pairs]; [discriminate|]. simpl.
  intros _. split; [discriminate|]. split; reflexivity.
Qed.

Lemma update_measurements_replaces_witness :
  __measurements
    (fst (update_measurements (MList [([Col "i"], [("i", 3%Q)])])
            (set_measurements (Some [("v", 1%Q)]) (schema_env [Col "x"; Col "v"]))))
    = Some [("i", 3%Q)].
Proof.
  apply (update_measurements_replaces
           (set_measurements (Some [("v", 1%Q)]) (schema_env [Col "x"; Col "v"]))
           [([Col "i"], [("i", 3%Q)])]).
  vm_compute. reflexivity.
Defined.

(** X15: registering is idempotent: after a call has registered a new
    group (at least one name, none twice, none known), a second call with
    the same group passes and leaves the schema as the first call made
    it. *)
Theorem update_measurements_again {M : Type} (e : Env M) (cols : list colgroup)
    (df df' : frame) :
  flatten cols <> [] ->
  NoDup (flatten cols) ->
  (forall n, n ∈ flatten cols -> n ∉ history.cols (history e)) ->
  snd (update_measurements (MList [(cols, df)]) e) = Return tt /\
  update_measurements (MList [(cols, df')]) (fst (update_measurements (MList [(cols, df)]) e))
    = (set_measurements (Some df') (fst (update_measurements (MList [(cols, df)]) e)),
       Return tt).
Proof.
  intros Hne Hnd Hnew.
  pose proof (update_measurements_last e [] cols df (history e) _ eq_refl
                (register_cols_new cols (history e) Hne Hnd Hnew)) as H1.
  simpl in H1. rewrite H1. simpl. split; [reflexivity|].
  match goal with
  | |- update_measurements _ ?e1 = _ =>
      pose proof (update_measurements_last e1 [] cols df' (history e1) (history e1)
                    eq_refl) as H2
  end.
  simpl in H2. rewrite H2.
  - reflexivity.
  - apply register_cols_known. intros n Hn.
    unfold history.cols, history.set_cols, history.structured_cols. simpl.
    rewrite flatten_app. apply elem_of_app. right. exact Hn.
Qed.

Lemma update_measurements_again_witness :
  update_measurements (MList [([Col "i"], [("i", 4%Q)])])
    (fst (update_measurements (MList [([Col "i"], [("i", 3%Q)])]) (schema_env [Col "x"])))
  = (set_measurements (Some [("i", 4%Q)])
       (fst (update_measurements (MList [([Col "i"], [("i", 3%Q)])]) (schema_env [Col "x"]))),
     Return tt).
Proof.
  apply (update_measurements_again (schema_env [Col "x"]) [Col "i"] [("i", 3%Q)] [("i", 4%Q)]).
  - discriminate.
  - apply (bool_decide_unpack _); vm_compute; exact I.
  - intros n Hn. apply list_elem_of_In in Hn. simpl in Hn. destruct Hn as [<-|[]].
    apply (bool_decide_unpack _); vm_compute; exact I.
Defined.

(** ** Time functions as parameters *)

Lemma eval_entries_callables (cell : option pyval) (t : Q) (fs : list (string * (Q -> pyval))) :
  eval_entries cell t (List.map lift_entry (callable_items fs))
    = Return (List.map (fun kf => (fst kf, snd kf t)) fs).
Proof.
  unfold callable_items.
  induction fs as [|[k f] fs IH]; simpl; [reflexivity|].
  rewrite IH. reflexivity.
Qed.

(** X16: when every value of [model_params] is callable, [step] pushes, in
    one [set] call and in the order of the mapping, each name with its
    function's value at the start of the window; an empty mapping pushes
    nothing. *)
Theorem push_parameters_callables {M : Type} (fmu : FMUModelME2 M) (e : Env M)
    (fs : list (string * (Q -> pyval))) (t : Q) (m : M) :
  model_parameters e = lift_model_params (Some (callable_items fs)) ->
  push_parameters fmu e t m
    = Return (match fs with
              | [] => m
              | _ => fmu_set fmu (List.map fst fs) (List.map (fun kf => snd kf t) fs) m
              end).
Proof.
  intros Hp. unfold push_parameters. rewrite Hp.
  destruct fs as [|kf fs]; [reflexivity|].
  unfold lift_model_params.
  change (callable_items (kf :: fs)) with ((fst kf, VFun (snd kf)) :: callable_items fs).
  unfold eval_parameters. rewrite entries_lift_items.
  change ((fst kf, VFun (snd kf)) :: callable_items fs) with (callable_items (kf :: fs)).
  rewrite eval_entries_callables. simpl.
  rewrite !List.map_map. reflexivity.
Qed.

Lemma push_parameters_callables_witness :
  push_parameters linear
    (demo_started euler_ivp (Some 5%Z)
       (Some (callable_items [("a", fun t => VNum (t + 1)); ("b", fun t => VNum (2 * t))])))
    (1 # 10) growth
  = Return (fmu_set linear ["a"; "b"] [VNum ((1 # 10) + 1); VNum (2 * (1 # 10))] growth).
Proof.
  apply (push_parameters_callables linear _
           [("a", fun t => VNum (t + 1)); ("b", fun t => VNum (2 * t))] (1 # 10) growth).
  reflexivity.
Defined.

(** ** The event iteration of [_setup_fmu] *)

(** X17: the event iteration ends, within the fuel, exactly when some
    round leaves the FMU asking for no further round; it then gives the
    FMU after the first such round.  At least one round is made, whatever
    the FMU said before. *)
Theorem event_iteration_spec {M : Type} (fmu : FMUModelME2 M) (fuel : nat) (m m' : M) :
  event_iteration fmu fuel m = Some m' <->
  exists k, k < fuel /\
            m' = event_rounds fmu (S k) m /\
            get_event_info fmu m' = false /\
            forall j, j < k -> get_event_info fmu (event_rounds fmu (S j) m) = true.
Proof.
  revert m. induction fuel as [|fuel IH]; intros m.
  - simpl. split; [discriminate | intros (k & Hk & _); lia].
  - simpl. destruct (get_event_info fmu (event_update fmu (enter_event_mode fmu m))) eqn:Hinfo.
    + rewrite IH. split.
      * intros (k & Hk & Hm' & Hend & Hbefore). exists (S k).
        split; [lia|]. split; [exact Hm'|]. split; [exact Hend|].
        intros [|j] Hj; [exact Hinfo | apply Hbefore; lia].
      * intros (k & Hk & Hm' & Hend & Hbefore). destruct k as [|k].
        -- simpl in Hm'. subst m'. congruence.
        -- exists k. split; [lia|]. split; [exact Hm'|]. split; [exact Hend|].
           intros j Hj. apply (Hbefore (S j)). lia.
    + split.
      * intros H. injection H as <-. exists 0. split; [lia|]. split; [reflexivity|].
        split; [exact Hinfo | intros j Hj; lia].
      * intros (k & Hk & Hm' & Hend & Hbefore). destruct k as [|k].
        -- simpl in Hm'. subst m'. reflexivity.
        -- specialize (Hbefore 0 ltac:(lia)). simpl in Hbefore. congruence.
Qed.

(** ** [_calc_jac] without derivatives *)

(** X18: for an FMU without derivatives [np.identity(0)] has no column, and
    [_calc_jac] raises the [ValueError] of [np.apply_along_axis]. *)
Theorem calc_jac_no_derivatives {M : Type} (fmu : FMUModelME2 M) (t : Q) (x : vec) (m : M) :
  get_derivatives_list fmu m = [] ->
  _calc_jac fmu t x m
    = (m, Raise (ValueError "Cannot apply_along_axis when any iteration dimensions are 0")).
Proof.
  intros Hd. unfold _calc_jac. rewrite Hd. reflexivity.
Qed.

Lemma calc_jac_no_derivatives_witness :
  _calc_jac linear 0 [] stateless
    = (stateless,
       Raise (ValueError "Cannot apply_along_axis when any iteration dimensions are 0")).
Proof. apply (calc_jac_no_derivatives linear 0 [] stateless). reflexivity. Defined.

(** ** [render] and [close] *)

Lemma select_cols_sound (fullmatch : string -> bool) (cols : list colgroup) (sel : list string) :
  select_cols fullmatch cols = Return sel ->
  forall n, In n sel -> fullmatch n = true /\ In n (flatten cols).
Proof.
  revert sel. induction cols as [|[name|l] rest IH]; intros sel Hsel; simpl in Hsel.
  - injection Hsel as <-. intros n [].
  - destruct (select_cols fullmatch rest) as [r|err]; [|discriminate].
    injection Hsel as <-. intros n Hn. unfold flatten. simpl.
    destruct (fullmatch name) eqn:Hm.
    + destruct Hn as [<-|Hn]; [auto|]. destruct (IH r eq_refl n Hn). auto.
    + destruct (IH r eq_refl n Hn). auto.
  - discriminate.
Qed.

Lemma render_groups_sound (fullmatch : string -> bool) (index : list Q)
    (groups : list colgroup) (p : plot) :
  In p (fst (render_groups fullmatch index groups)) ->
  plot_cols p <> [] /\
  (forall n, In n (plot_cols p) -> fullmatch n = true /\ In n (flatten groups)) /\
  plot_index p = index.
Proof.
  induction groups as [|g rest IH]; simpl; [intros []|].
  assert (Hrest : In p (fst (render_groups fullmatch index rest)) ->
                  plot_cols p <> [] /\
                  (forall n, In n (plot_cols p) ->
                             fullmatch n = true /\ In n (flatten (g :: rest))) /\
                  plot_index p = index).
  { intros Hin. destruct (IH Hin) as (Hne & Hcols & Hidx).
    split; [exact Hne|]. split; [|exact Hidx].
    intros n Hn. destruct (Hcols n Hn) as [Hm Hfl]. split; [exact Hm|].
    unfold flatten in *. simpl. apply List.in_or_app. auto. }
  destruct (select_cols fullmatch _) as [[|c sel]|err] eqn:Hsel; [exact Hrest | | intros []].
  destruct (render_groups fullmatch index rest) as [plots raised]. simpl in *.
  intros [<-|Hin]; [|auto]. simpl. split; [discriminate|]. split; [|reflexivity].
  intros n Hn. destruct (select_cols_sound fullmatch _ _ Hsel n Hn) as [Hm Hfl].
  split; [exact Hm|]. unfold flatten. simpl. apply List.in_or_app. left.
  destruct g as [name|l]; simpl.
  - unfold flatten in Hfl. simpl in Hfl. exact Hfl.
  - exact Hfl.
Qed.

(** X20: [render] draws only when it is called with [close] in a mode
    other than [None] and ['step']; a plot is never empty, each of its
    columns matches the pattern and is a column of the history, and its
    time axis has one entry for each row of the history. *)
Theorem render_plots {M : Type} (fullmatch : string -> bool) (e : Env M) (closing : bool)
    (p : plot) :
  In p (fst (render fullmatch e closing)) ->
  closing = true /\ viz_mode e <> None /\ viz_mode e <> Some "step" /\
  plot_cols p <> [] /\
  (forall n, In n (plot_cols p) -> fullmatch n = true /\ In n (history.cols (history e))) /\
  List.length (plot_index p) = List.length (hist_rows (history e)).
Proof.
  unfold render. destruct (viz_mode e) as [v|]; [|intros []].
  destruct closing; [|intros []].
  destruct (String.eqb v "step") eqn:Hv; [intros []|].
  pose proof (render_groups_sound fullmatch
                (scaled_index (List.length (hist_rows (history e))) (time_step_size e))
                (history.structured_cols (history e)) p) as Hs.
  destruct (render_groups _ _ _) as [plots raised]. simpl in *.
  intros Hin. destruct (Hs Hin) as (Hne & Hcols & Hidx).
  split; [reflexivity|]. split; [discriminate|]. split.
  - intros H. injection H as ->. discriminate.
  - split; [exact Hne|]. split; [exact Hcols|].
    rewrite Hidx. unfold scaled_index. rewrite List.length_map, List.length_seq. reflexivity.
Qed.

Lemma render_plots_witness :
  fst (render demo_match (viz_env (Some "episode")) true)
    = [mkPlot ["a.i"] [(inject_Z 0 * (1 # 10))%Q; (inject_Z 1 * (1 # 10))%Q];
       mkPlot ["b"] [(inject_Z 0 * (1 # 10))%Q; (inject_Z 1 * (1 # 10))%Q]] /\
  List.length (plot_index (mkPlot ["b"] [(inject_Z 0 * (1 # 10))%Q; (inject_Z 1 * (1 # 10))%Q]))
    = List.length (hist_rows (history (viz_env (Some "episode")))).
Proof.
  split; [reflexivity|].
  apply (render_plots demo_match (viz_env (Some "episode")) true).
  simpl. auto.
Defined.

Lemma select_cols_flat (fullmatch : string -> bool) (cols : list colgroup) :
  forallb is_col cols = true ->
  select_cols fullmatch cols = Return (List.filter fullmatch (flatten cols)).
Proof.
  induction cols as [|[name|l] rest IH]; simpl; intros Hflat;
    [reflexivity | | discriminate].
  rewrite (IH Hflat). unfold flatten. simpl. destruct (fullmatch name); reflexivity.
Qed.

Lemma render_groups_flat (fullmatch : string -> bool) (index : list Q) (groups : list colgroup) :
  forallb is_flat_group groups = true ->
  snd (render_groups fullmatch index groups) = None /\
  List.map plot_cols (fst (render_groups fullmatch index groups))
    = List.filter nonempty
        (List.map (fun g => List.filter fullmatch (flatten_group g)) groups) /\
  Forall (fun p => plot_index p = index) (fst (render_groups fullmatch index groups)).
Proof.
  induction groups as [|g rest IH]; simpl; intros Hflat; [auto|].
  apply andb_prop in Hflat. destruct Hflat as [Hg Hrest].
  destruct (IH Hrest) as (Hnone & Hmap & Hidx).
  assert (Hsel : select_cols fullmatch (match g with
                                        | Cols l => l
                                        | Col _ => [g]
                                        end)
                 = Return (List.filter fullmatch (flatten_group g))).
  { destruct g as [name|l].
    - rewrite select_cols_flat by reflexivity. reflexivity.
    - rewrite (select_cols_flat fullmatch l Hg). reflexivity. }
  rewrite Hsel. destruct (List.filter fullmatch (flatten_group g)) as [|c sel]; simpl.
  - auto.
  - destruct (render_groups fullmatch index rest) as [plots raised]. simpl in *.
    split; [exact Hnone|]. split; [rewrite Hmap; reflexivity|].
    constructor; [reflexivity | exact Hidx].
Qed.

(** X21: when every group of the schema is a name or a list of names,
    [close()] in the mode ['episode'] returns [True] after one plot for
    each group that has a matching column, in the order of the schema,
    with its matching columns in their order; groups without a match are
    passed over. *)
Theorem close_plots_matching_groups {M : Type} (fullmatch : string -> bool) (e : Env M) :
  viz_mode e = Some "episode" ->
  forallb is_flat_group (history.structured_cols (history e)) = true ->
  snd (close fullmatch e) = Return true /\
  List.map plot_cols (fst (close fullmatch e))
    = List.filter nonempty
        (List.map (fun g => List.filter fullmatch (flatten_group g))
                  (history.structured_cols (history e))).
Proof.
  intros Hmode Hflat. unfold close, render. rewrite Hmode. simpl.
  destruct (render_groups_flat fullmatch
              (scaled_index (List.length (hist_rows (history e))) (time_step_size e))
              (history.structured_cols (history e)) Hflat) as (Hnone & Hmap & _).
  destruct (render_groups _ _ _) as [plots raised]. simpl in *.
  rewrite Hnone. auto.
Qed.

Lemma close_plots_matching_groups_witness :
  snd (close (fun n => String.eqb n "b") (viz_env (Some "episode"))) = Return true /\
  List.map plot_cols (fst (close (fun n => String.eqb n "b") (viz_env (Some "episode"))))
    = [["b"]].
Proof.
  apply (close_plots_matching_groups (fun n => String.eqb n "b") (viz_env (Some "episode")));
    reflexivity.
Defined.

(** ** One row for each step *)

Lemma step_simulate_returns {M : Type} (fmu : FMUModelME2 M) (solve_ivp : solver M)
    (e : Env M) (t0 t1 : Q) (m1 : M) (tup : list pyobj) :
  is_done e = Return false ->
  sim_time_interval e = Some (t0, t1) ->
  snd (step_simulate fmu solve_ivp e t0 m1) = Return tup ->
  exists obs d,
    tup = [OFrame obs; ONum (reward e obs); OBool d; ODict []] /\
    hist_rows (history (fst (step_simulate fmu solve_ivp e t0 m1)))
      = hist_rows (history e) ++ [obs] /\
    is_done (fst (step_simulate fmu solve_ivp e t0 m1)) = Return d.
Proof.
  intros Hd Hw. pose proof Hd as Hd'.
  rewrite (is_done_value e t0 t1 Hw) in Hd'. injection Hd' as Hd'.
  unfold step_simulate.
  destruct (push_parameters fmu e t0 m1) as [m2|err]; [|discriminate].
  destruct (simulate_model fmu solve_ivp (set_model m2 e)) as [m' Hm'].
  destruct (_simulate fmu solve_ivp (set_model m2 e)) as [e1 [st|err]];
    simpl in Hm'; subst e1; [|discriminate].
  destruct (join_measurements st _) as [obs|err]; [|discriminate].
  unfold is_done. simpl. rewrite Hw, Hd'. simpl.
  intros H. injection H as <-. eexists. eexists. repeat split; reflexivity.
Qed.

Lemma step_returns_row {M : Type} (fmu : FMUModelME2 M) (solve_ivp : solver M)
    (e : Env M) (a : action) (tup : list pyobj) :
  is_done e = Return false ->
  snd (step fmu solve_ivp e a) = Return tup ->
  exists obs d,
    tup = [OFrame obs; ONum (reward e obs); OBool d; ODict []] /\
    hist_rows (history (fst (fst (step fmu solve_ivp e a)))) = hist_rows (history e) ++ [obs] /\
    is_done (fst (fst (step fmu solve_ivp e a))) = Return d.
Proof.
  intros Hd. destruct (is_done_window e false Hd) as (t0 & t1 & Hw).
  unfold step. rewrite Hd, Hw.
  destruct (as_sequence a) as [values logs].
  destruct (negb _); [discriminate|].
  pose proof (step_simulate_returns fmu solve_ivp e t0 t1
                (fmu_set fmu (model_input_names e) values (model e)) tup Hd Hw) as Hs.
  destruct (step_simulate fmu solve_ivp e t0 _) as [e1 res]. exact Hs.
Qed.

(** X22: when a step made in a state that is not done returns, the
    observation it returns is the row it has appended to the history, the
    reward is [reward_fun] of that row, and the flag it returns is the
    value of [is_done] in the state it leaves. *)
Theorem step_returns_last_row {M : Type} (fmu : FMUModelME2 M) (solve_ivp : solver M)
    (e : Env M) (a : action) (tup : list pyobj) :
  is_done e = Return false ->
  snd (step fmu solve_ivp e a) = Return tup ->
  exists obs d,
    tup = [OFrame obs; ONum (reward e obs); OBool d; ODict []] /\
    hist_rows (history (fst (fst (step fmu solve_ivp e a)))) = hist_rows (history e) ++ [obs] /\
    is_done (fst (fst (step fmu solve_ivp e a))) = Return d.
Proof. apply step_returns_row. Qed.

Lemma step_returns_last_row_witness :
  is_done (demo_started euler_ivp (Some 5%Z) None) = Return false /\
  exists obs d,
    hist_rows (history (fst (fst (step linear euler_ivp
                                       (demo_started euler_ivp (Some 5%Z) None)
                                       (ActSeq [VNum 7])))))
      = hist_rows (history (demo_started euler_ivp (Some 5%Z) None)) ++ [obs] /\
    is_done (fst (fst (step linear euler_ivp (demo_started euler_ivp (Some 5%Z) None)
                            (ActSeq [VNum 7])))) = Return d.
Proof.
  assert (Hd : is_done (demo_started euler_ivp (Some 5%Z) None) = Return false)
    by (vm_compute; reflexivity).
  split; [exact Hd|].
  destruct (snd (step linear euler_ivp (demo_started euler_ivp (Some 5%Z) None)
                      (ActSeq [VNum 7]))) as [tup|err] eqn:Hs;
    [|vm_compute in Hs; discriminate].
  destruct (step_returns_last_row linear euler_ivp _ (ActSeq [VNum 7]) tup Hd Hs)
    as (obs & d & _ & Hrows & Hdone).
  exists obs, d. split; assumption.
Defined.

(** X23: the history has one row for each step: after calls of [step]
    that were made in a state that is not done and returned, it has as
    many rows more as there were calls, and the schema it had. *)
Theorem history_row_per_step {M : Type} (fmu : FMUModelME2 M) (solve_ivp : solver M)
    (actions : list action) (e e' : Env M) :
  run_steps fmu solve_ivp actions e = Some e' ->
  List.length (hist_rows (history e'))
    = List.length (hist_rows (history e)) + List.length actions /\
  hist_structured (history e') = hist_structured (history e).
Proof.
  revert e. induction actions as [|a rest IH]; intros e Hrun; simpl in Hrun.
  - injection Hrun as <-. simpl. split; [lia | reflexivity].
  - destruct (is_done e) as [[|]|err] eqn:Hd; try discriminate.
    destruct (step fmu solve_ivp e a) as [[e1 logs] [tup|err]] eqn:Hs; [|discriminate].
    destruct (step_returns_row fmu solve_ivp e a tup Hd) as (obs & d & _ & Hrows & _);
      [rewrite Hs; reflexivity|].
    destruct (step_keeps fmu solve_ivp e a) as (_ & _ & _ & Hschema & _).
    rewrite Hs in Hrows, Hschema. simpl in Hrows, Hschema.
    destruct (IH e1 Hrun) as [Hlen Hsch]. split; [|congruence].
    rewrite Hlen, Hrows, List.length_app. simpl. lia.
Qed.

Lemma history_row_per_step_witness :
  exists e',
    run_steps linear euler_ivp (repeat (ActSeq [VNum 7]) 3)
              (demo_started euler_ivp (Some 5%Z) None) = Some e' /\
    List.length (hist_rows (history e')) = 4.
Proof.
  destruct (run_steps linear euler_ivp (repeat (ActSeq [VNum 7]) 3)
              (demo_started euler_ivp (Some 5%Z) None)) as [e'|] eqn:Hrun;
    [|vm_compute in Hrun; discriminate].
  exists e'. split; [reflexivity|].
  destruct (history_row_per_step linear euler_ivp _ _ e' Hrun) as [Hlen _].
  rewrite Hlen. reflexivity.
Defined.
